(** * django-suit: the sortable admin mixins of [suit/admin.py]

    A shallow embedding of the classes of [suit/admin.py] and the properties
    of their hooks: forced change-list ordering, the field lists rewritten by
    [__init__], the stacked inline's field sets, the order widget, the
    sequence number assigned by [save_model], and the two optional patches
    applied when the module is loaded. *)

From Stdlib Require Import ZArith Lia.
From stdpp Require Import gmap strings list fin_maps.

(** ** Python values, exceptions and the operations the module uses *)

Module Py.

(** The exceptions the module's code can meet. *)
Inductive exn :=
| TypeError
| AttributeError
| KeyError
| ImportError
| OtherError (name : string).

#[global] Instance exn_eq_dec : EqDecision exn.
Proof. solve_decision. Defined.

(** A computation either returns or raises. *)
Inductive result (A : Type) :=
| Ok (a : A)
| Raise (e : exn).
Arguments Ok {A} a.
Arguments Raise {A} e.

#[global] Instance result_ret : MRet result := @Ok.
#[global] Instance result_bind : MBind result := λ A B f m,
  match m with
  | Ok a => f a
  | Raise e => Raise e
  end.

(** [try: body except TypeError: handler] *)
Definition try_except_TypeError {A} (body : result A) (handler : result A)
  : result A :=
  match body with
  | Raise TypeError => handler
  | r => r
  end.

(** [try: body except ImportError: pass], for a body that updates a state. *)
Definition try_except_ImportError_pass {S} (body : result S) (unchanged : S)
  : result S :=
  match body with
  | Raise ImportError => Ok unchanged
  | r => r
  end.

(** A configuration attribute holding field names: [None], a tuple or a
    list. Tuples are immutable, lists are mutated in place. *)
Inductive pyseq :=
| PyNone
| PyTuple (l : list string)
| PyList (l : list string).

#[global] Instance pyseq_eq_dec : EqDecision pyseq.
Proof. solve_decision. Defined.

Definition items (v : pyseq) : list string :=
  match v with
  | PyNone => []
  | PyTuple l | PyList l => l
  end.

(** Truth value: [None] and the empty sequences are false. *)
Definition truthy (v : pyseq) : bool :=
  match v with
  | PyNone => false
  | PyTuple l | PyList l => negb (bool_decide (l = []))
  end.

(** [a or b] *)
Definition py_or (a b : pyseq) : pyseq := if truthy a then a else b.

(** [x in v]; [None] is not iterable. *)
Definition py_in (x : string) (v : pyseq) : result bool :=
  match v with
  | PyNone => Raise TypeError
  | PyTuple l | PyList l => Ok (bool_decide (x ∈ l))
  end.

(** [list(v)] *)
Definition py_list (v : pyseq) : result (list string) :=
  match v with
  | PyNone => Raise TypeError
  | PyTuple l | PyList l => Ok l
  end.

(** [list.remove(x)] deletes the first occurrence only. *)
Fixpoint remove_first (x : string) (l : list string) : list string :=
  match l with
  | [] => []
  | y :: l' => if decide (x = y) then l' else y :: remove_first x l'
  end.

(** [v.remove(x)], called only where [x in v] holds; a tuple has no such
    method. *)
Definition py_remove (x : string) (v : pyseq) : result pyseq :=
  match v with
  | PyList l => Ok (PyList (remove_first x l))
  | PyTuple _ | PyNone => Raise AttributeError
  end.

(** [v.insert(0, x)] *)
Definition py_insert0 (x : string) (v : pyseq) : result pyseq :=
  match v with
  | PyList l => Ok (PyList (x :: l))
  | PyTuple _ | PyNone => Raise AttributeError
  end.

(** [d[k]] on a dict. *)
Definition py_getitem {V} (d : gmap string V) (k : string) : result V :=
  match d !! k with
  | Some v => Ok v
  | None => Raise KeyError
  end.

(** Number of times a name occurs in an attribute. *)
Definition occurrences (x : string) (v : pyseq) : nat :=
  count_occ (λ a b : string, decide (a = b)) (items v) x.

(** Scalar values: attributes of a model instance. *)
Inductive pyval :=
| VNone
| VInt (n : Z)
| VStr (s : string).

#[global] Instance pyval_eq_dec : EqDecision pyval.
Proof. solve_decision. Defined.

(** Truth value of a scalar: [None], [0] and [''] are false. *)
Definition val_truthy (v : pyval) : bool :=
  match v with
  | VNone => false
  | VInt n => negb (Z.eqb n 0)
  | VStr s => negb (bool_decide (s = ""))
  end.

(** [v + 1]: only a number can be added to. *)
Definition py_add1 (v : pyval) : result pyval :=
  match v with
  | VInt n => Ok (VInt (n + 1))
  | VNone | VStr _ => Raise TypeError
  end.

End Py.
Import Py.

(** ** The host framework's model layer, as far as [save_model] uses it *)

Module Model.

(** A model instance: its primary key and its other attributes. *)
Record Obj := Build_Obj {
  pk : pyval;
  attrs : gmap string pyval;
}.

Definition getattr (o : Obj) (name : string) : option pyval :=
  if decide (name = "pk") then Some (pk o) else attrs o !! name.

Definition setattr (o : Obj) (name : string) (v : pyval) : Obj :=
  if decide (name = "pk") then Build_Obj v (attrs o)
  else Build_Obj (pk o) (<[name := v]> (attrs o)).

(** The values of an integer column over the rows of the table; a row
    without a number there holds NULL. *)
Definition column (field : string) (rows : list Obj) : list (option Z) :=
  (λ o, match getattr o field with
        | Some (VInt n) => Some n
        | _ => None
        end) <$> rows.

(** SQL [MAX]: NULLs are skipped, and the result is NULL when nothing is
    left. *)
Fixpoint sql_max (col : list (option Z)) : option Z :=
  match col with
  | [] => None
  | None :: col' => sql_max col'
  | Some n :: col' =>
      match sql_max col' with
      | Some m => Some (Z.max n m)
      | None => Some n
      end
  end.

Definition of_sql (v : option Z) : pyval :=
  match v with
  | Some n => VInt n
  | None => VNone
  end.

(** [objects.aggregate(Max(field))]: a dict with the one key [field__max]. *)
Definition aggregate_Max (field : string) (rows : list Obj)
  : gmap string pyval :=
  {[ field +:+ "__max" := of_sql (sql_max (column field rows)) ]}.

End Model.

(** ** [SortableModelAdminBase]: the class attribute [sortable] *)

Module SortableModelAdminBase.

Definition sortable : string := "order".

End SortableModelAdminBase.

(** ** [SortableListForm]: the holder of the shared order widget *)

Module SortableListForm.

(** A form widget; [NumberInput(attrs=...)] keeps the attributes it is
    given. *)
Record Widget := NumberInput {
  attrs : gmap string string;
}.

(** Widgets are objects: they live in a store and are referred to by their
    address, so that two references to one widget are told apart from two
    widgets with equal attributes. [Meta_widgets] is the class attribute
    [SortableListForm.Meta.widgets]. *)
Record World := Build_World {
  store : list Widget;
  Meta_widgets : gmap string nat;
}.

Definition order_attrs : gmap string string :=
  {[ "class" := "hide input-mini suit-sortable" ]}.

(** The state once the class body has been executed. *)
Definition loaded : World :=
  Build_World [NumberInput order_attrs] {[ "order" := 0%nat ]}.

Definition deref (w : World) (a : nat) : result Widget :=
  match store w !! a with
  | Some x => Ok x
  | None => Raise (OtherError "dangling reference")
  end.

(** [copy.deepcopy(widget)]: a new object with equal attributes. *)
Definition deepcopy (w : World) (a : nat) : result (World * nat) :=
  wd ← deref w a;
  mret (Build_World (store w ++ [NumberInput (attrs wd)]) (Meta_widgets w),
        length (store w)).

(** [widget.attrs[k]] *)
Definition get_attr (w : World) (a : nat) (k : string) : result string :=
  wd ← deref w a;
  py_getitem (attrs wd) k.

(** [widget.attrs[k] = v], in place. *)
Definition set_attr (w : World) (a : nat) (k v : string) : result World :=
  wd ← deref w a;
  mret (Build_World (<[a := NumberInput (<[k := v]> (attrs wd))]> (store w))
                    (Meta_widgets w)).

(** The shared order widget is where the class body put it, with the
    attributes it was built with. *)
Definition shared_intact (w : World) : Prop :=
  (py_getitem (Meta_widgets w) "order" ≫= deref w) = Ok (NumberInput order_attrs).

End SortableListForm.

(** ** [SortableTabularInlineBase] *)

Module SortableTabularInlineBase.

Record t := Build {
  sortable : string;
  ordering : pyseq;
  fields : pyseq;
}.

(** [if v and sortable not in v: v = list(v) + [sortable]] *)
Definition append_if_set_and_missing (s : string) (v : pyseq) : result pyseq :=
  if truthy v then
    present ← py_in s v;
    if negb present then l ← py_list v; mret (PyList (l ++ [s]))
    else mret v
  else mret v.

(** The two statements of [__init__] that rewrite [self.fields]:
    [self.fields = self.fields or []] and the guarded append. *)
Definition fields_step (s : string) (v : pyseq) : result pyseq :=
  append_if_set_and_missing s (py_or v (PyList [])).

Definition __init__ (self : t) : result t :=
  let ordering' := PyTuple [sortable self] in
  fields' ← fields_step (sortable self) (fields self);
  mret (Build (sortable self) ordering' fields').

(** [formfield_for_dbfield], up to the call of the framework's method: the
    keyword arguments handed to it. The widget passed on is the shared one
    itself. *)
Definition formfield_for_dbfield (self : t) (db_field_name : string)
    (kwargs : gmap string nat) (w : SortableListForm.World)
  : result (gmap string nat * SortableListForm.World) :=
  if decide (db_field_name = sortable self) then
    widget ← py_getitem (SortableListForm.Meta_widgets w) "order";
    mret (<["widget" := widget]> kwargs, w)
  else mret (kwargs, w).

End SortableTabularInlineBase.

(** ** [SortableModelAdmin] *)

Module SortableModelAdmin.

Record t := Build {
  sortable : string;
  ordering : pyseq;
  list_display : pyseq;
  list_editable : pyseq;
  exclude : pyseq;
  list_per_page : Z;
}.

(** [if v and sortable not in v: v = list(v) + [sortable]] *)
Definition list_display_step (s : string) (v : pyseq) : result pyseq :=
  SortableTabularInlineBase.append_if_set_and_missing s v.

(** [v = v or []; if sortable not in v: v = list(v) + [sortable]] *)
Definition append_if_missing (s : string) (v : pyseq) : result pyseq :=
  let v := py_or v (PyList []) in
  present ← py_in s v;
  if negb present then l ← py_list v; mret (PyList (l ++ [s]))
  else mret v.

Definition list_editable_step : string → pyseq → result pyseq :=
  append_if_missing.

Definition exclude_step : string → pyseq → result pyseq :=
  append_if_missing.

Definition __init__ (self : t) : result t :=
  let s := sortable self in
  let ordering' := PyTuple [s] in
  list_display' ← list_display_step s (list_display self);
  list_editable' ← list_editable_step s (list_editable self);
  exclude' ← exclude_step s (exclude self);
  mret (Build s ordering' list_display' list_editable' exclude'
              (list_per_page self)).

(** The change-list classes [get_changelist] can choose from: the
    framework's own and the sortable subclass. *)
Inductive changelist_class :=
| ChangeList_class
| SortableChangeList_class.

Definition get_changelist {Request : Type} (self : t) (request : Request)
  : changelist_class :=
  SortableChangeList_class.

Section save_model.

Context {Request Form : Type}.

(** [ModelAdmin.save_model], the framework's save: it may change the object
    (a new row receives its key) and the table, or raise. *)
Variable super_save_model :
  Request → Model.Obj → Form → bool → list Model.Obj →
  result (Model.Obj * list Model.Obj).

(** The body of [if not obj.pk: ...]: the object as it is when the
    framework's save is reached. *)
Definition assign_order (self : t) (obj : Model.Obj) (rows : list Model.Obj)
  : result Model.Obj :=
  if negb (val_truthy (Model.pk obj)) then
    let max_order := Model.aggregate_Max (sortable self) rows in
    next_order ← try_except_TypeError
      (m ← py_getitem max_order (sortable self +:+ "__max"); py_add1 m)
      (mret (VInt 1));
    mret (Model.setattr obj (sortable self) next_order)
  else mret obj.

Definition save_model (self : t) (request : Request) (obj : Model.Obj)
    (form : Form) (change : bool) (rows : list Model.Obj)
  : result (Model.Obj * list Model.Obj) :=
  obj' ← assign_order self obj rows;
  super_save_model request obj' form change rows.

End save_model.

End SortableModelAdmin.

(** ** [SortableChangeList] *)

Module SortableChangeList.

(** [model._meta]: the name of the primary key and the model's own default
    ordering. *)
Record Options := Build_Options {
  pk_name : string;
  meta_ordering : pyseq;
}.

Record t := Build {
  model_admin : SortableModelAdmin.t;
  model : Options;
}.

Definition get_ordering {Request Queryset : Type} (self : t)
    (request : Request) (queryset : Queryset) : list string :=
  [SortableModelAdmin.sortable (model_admin self);
   "-" +:+ pk_name (model self)].

(** The ordering a change list of the given class uses; the framework's own
    class computes its ordering from the request, the admin and the model,
    which is the argument [configured]. *)
Definition ordering_of {Request Queryset : Type}
    (cls : SortableModelAdmin.changelist_class) (configured : list string)
    (self : t) (request : Request) (queryset : Queryset) : list string :=
  match cls with
  | SortableModelAdmin.ChangeList_class => configured
  | SortableModelAdmin.SortableChangeList_class =>
      get_ordering self request queryset
  end.

End SortableChangeList.

(** ** [SortableStackedInlineBase] *)

Module SortableStackedInlineBase.

Record t := Build {
  sortable : string;
  ordering : pyseq;
}.

Definition __init__ (self : t) : result t :=
  mret (Build (sortable self) (PyTuple [sortable self])).

(** An element of a fieldset tuple [(name, options)]: the name ([None] or a
    string) or the options dict. *)
Inductive line :=
| LNone
| LName (name : string)
| LDict (d : gmap string pyseq).

Definition fieldset : Type := list line.

(** [for line in fieldset: ...], with the flag [sortable_added]; the result
    is the fieldset as the loop leaves it and the flag. The lists are changed
    in place, so the dict holds the changed list afterwards. *)
Fixpoint scan_lines (s : string) (sortable_added : bool) (lines : list line)
  : result (list line * bool) :=
  match lines with
  | [] => mret ([], sortable_added)
  | LDict d :: rest =>
      if decide (d = ∅) then
        '(rest', added) ← scan_lines s sortable_added rest;
        mret (LDict d :: rest', added)
      else
        let fields := default PyNone (d !! "fields") in
        present ← py_in s fields;
        fields ← (if present then py_remove s fields else mret fields);
        if negb sortable_added then
          fields ← py_insert0 s fields;
          mret (LDict (<["fields" := fields]> d) :: rest, true)
        else
          '(rest', added) ← scan_lines s sortable_added rest;
          let d' : gmap string pyseq :=
            if (present : bool) then <["fields" := fields]> d else d in
          mret (LDict d' :: rest', added)
  | ln :: rest =>
      '(rest', added) ← scan_lines s sortable_added rest;
      mret (ln :: rest', added)
  end.

(** [for fieldset in fieldsets: ...] *)
Fixpoint scan_fieldsets (s : string) (sortable_added : bool)
    (fieldsets : list fieldset) : result (list fieldset) :=
  match fieldsets with
  | [] => mret []
  | fs :: rest =>
      '(fs', added) ← scan_lines s sortable_added fs;
      rest' ← scan_fieldsets s added rest;
      mret (fs' :: rest')
  end.

(** [get_fieldsets]; the argument is what the framework's [get_fieldsets]
    returned. *)
Definition get_fieldsets (self : t) (super_fieldsets : list fieldset)
  : result (list fieldset) :=
  scan_fieldsets (sortable self) false super_fieldsets.

(** The field names of a group, and of all groups in order. *)
Definition line_fields (ln : line) : list string :=
  match ln with
  | LDict d => items (default PyNone (d !! "fields"))
  | _ => []
  end.

Definition group_fields (fs : fieldset) : list string :=
  concat (line_fields <$> fs).

Definition groups (fieldsets : list fieldset) : list (list string) :=
  group_fields <$> fieldsets.

(** A fieldset written the way the host framework validates it: the pair of
    a name and an options dict, with ["fields"] a list that names no field
    twice; only the sortable field matters here. *)
Definition is_name (ln : line) : bool :=
  match ln with
  | LDict _ => false
  | LNone | LName _ => true
  end.

Definition list_group (s : string) (fs : fieldset) : bool :=
  match fs with
  | [name; LDict d] =>
      is_name name &&
      match d !! "fields" with
      | Some (PyList l) => bool_decide (occurrences s (PyList l) ≤ 1)%nat
      | _ => false
      end
  | _ => false
  end.

(** The attributes the stacked inline gives to its own order widget. *)
Definition stacked_attrs : gmap string string :=
  {[ "class" := "hide input-mini suit-sortable suit-sortable-stacked";
     "rowclass" := " suit-sortable-stacked-row" ]}.

(** [formfield_for_dbfield], up to the call of the framework's method: the
    keyword arguments handed to it. *)
Definition formfield_for_dbfield (self : t) (db_field_name : string)
    (kwargs : gmap string nat) (w : SortableListForm.World)
  : result (gmap string nat * SortableListForm.World) :=
  if decide (db_field_name = sortable self) then
    shared ← py_getitem (SortableListForm.Meta_widgets w) "order";
    '(w, widget) ← SortableListForm.deepcopy w shared;
    let kwargs := <["widget" := widget]> kwargs in
    cls ← SortableListForm.get_attr w widget "class";
    w ← SortableListForm.set_attr w widget "class"
          (cls +:+ " suit-sortable-stacked");
    w ← SortableListForm.set_attr w widget "rowclass"
          " suit-sortable-stacked-row";
    mret (kwargs, w)
  else mret (kwargs, w).

(** Any number of calls, one after the other, each with its own field name
    and keyword arguments. *)
Fixpoint formfield_calls (self : t) (calls : list (string * gmap string nat))
    (w : SortableListForm.World)
  : result (list (gmap string nat) * SortableListForm.World) :=
  match calls with
  | [] => mret ([], w)
  | (name, kwargs) :: rest =>
      '(out, w) ← formfield_for_dbfield self name kwargs w;
      '(outs, w) ← formfield_calls self rest w;
      mret (out :: outs, w)
  end.

(** What a call hands on: for the sortable field a widget of its own with
    the stacked attributes, for any other field the arguments it was given. *)
Definition handed_on (self : t) (w' : SortableListForm.World)
    (call : string * gmap string nat) (out : gmap string nat) : Prop :=
  if decide (call.1 = sortable self) then
    ∃ c, out = <["widget" := c]> call.2
         ∧ SortableListForm.Meta_widgets w' !! "order" ≠ Some c
         ∧ SortableListForm.deref w' c
           = Ok (SortableListForm.NumberInput stacked_attrs)
  else out = call.2.

End SortableStackedInlineBase.

(** ** The two optional patches run when the module is loaded *)

Module Patches.

(** What an [import] statement of an optional package does. *)
Inductive import_outcome :=
| Imported
| ImportRaises (e : exn).

Record environment := Build_environment {
  INSTALLED_APPS : list string;
  import_PageForm : import_outcome;
  import_content_models : import_outcome;
}.

Inductive widget_class :=
| SuitSplitDateTimeWidget
| FrameworkWidget (name : string).

Inductive list_filter_method :=
| framework_get_list_filter
| db_get_list_filter.

(** The two places the patches write to: [PageForm.Meta.widgets] of the CMS
    package and [ModelAdmin.get_list_filter] of the framework. *)
Record framework := Build_framework {
  PageForm_Meta_widgets : gmap string widget_class;
  ModelAdmin_get_list_filter : list_filter_method;
}.

Definition import (o : import_outcome) : result unit :=
  match o with
  | Imported => Ok ()
  | ImportRaises e => Raise e
  end.

Definition cms_patch (env : environment) (st : framework) : result framework :=
  if bool_decide ("cms" ∈ INSTALLED_APPS env) then
    try_except_ImportError_pass
      (_ ← import (import_PageForm env);
       mret (Build_framework
               {[ "publication_date" := SuitSplitDateTimeWidget;
                  "publication_end_date" := SuitSplitDateTimeWidget ]}
               (ModelAdmin_get_list_filter st)))
      st
  else mret st.

Definition content_status_patch (env : environment) (st : framework)
  : result framework :=
  if bool_decide ("content_status" ∈ INSTALLED_APPS env) then
    try_except_ImportError_pass
      (_ ← import (import_content_models env);
       mret (Build_framework (PageForm_Meta_widgets st) db_get_list_filter))
      st
  else mret st.

(** The two [if] blocks at the end of the module, in order. *)
Definition load (env : environment) (st : framework) : result framework :=
  st ← cms_patch env st;
  content_status_patch env st.

End Patches.

(** ** [SortableModelAdmin.merge_form_meta] and [get_changelist_form] *)

Module ChangelistForm.

(** The class objects the method reaches: widgets, the dicts held in
    [widgets] attributes, and the [Meta] classes. A [Meta] class is given by
    what [getattr(Meta, 'widgets', None)] finds: the address of a dict, or
    [None] when there is no such attribute. [SortableListForm.Meta] is the
    class at address 0. *)
Record Classes := Build_Classes {
  widgets : list SortableListForm.Widget;
  dicts : list (gmap string nat);
  metas : list (option nat);
}.

Definition SortableListForm_Meta : nat := 0%nat.

(** The state once the class body of [SortableListForm] has been executed. *)
Definition loaded : Classes :=
  Build_Classes [SortableListForm.NumberInput SortableListForm.order_attrs]
                [{[ "order" := 0%nat ]}]
                [Some 0%nat].

(** A form class, given by what [getattr(form, 'Meta', None)] finds. *)
Record Form := Build_Form {
  Meta : option nat;
}.

Definition dangling {A} : result A := Raise (OtherError "dangling reference").

(** [getattr(Meta, 'widgets', None)] *)
Definition getattr_widgets (c : Classes) (m : nat) : result (option nat) :=
  match metas c !! m with
  | Some v => Ok v
  | None => dangling
  end.

(** [Meta.widgets] *)
Definition attr_widgets (c : Classes) (m : nat) : result nat :=
  v ← getattr_widgets c m;
  match v with
  | Some d => Ok d
  | None => Raise AttributeError
  end.

Definition dict_at (c : Classes) (d : nat) : result (gmap string nat) :=
  match dicts c !! d with
  | Some x => Ok x
  | None => dangling
  end.

Definition merge_form_meta (self : SortableModelAdmin.t) (form : Form)
    (c : Classes) : result (Form * Classes) :=
  (* if not getattr(form, 'Meta', None): form.Meta = SortableListForm.Meta *)
  let m := default SortableListForm_Meta (Meta form) in
  let form := Build_Form (Some m) in
  (* if not getattr(form.Meta, 'widgets', None): form.Meta.widgets = {} *)
  found ← getattr_widgets c m;
  falsy ← match found with
          | None => mret true
          | Some d => x ← dict_at c d; mret (bool_decide (x = ∅))
          end;
  let c := if (falsy : bool)
           then Build_Classes (widgets c) (dicts c ++ [∅])
                              (<[m := Some (length (dicts c))]> (metas c))
           else c in
  (* form.Meta.widgets[self.sortable] = SortableListForm.Meta.widgets['order'] *)
  shared ← attr_widgets c SortableListForm_Meta;
  shared_dict ← dict_at c shared;
  order ← py_getitem shared_dict "order";
  target ← attr_widgets c m;
  target_dict ← dict_at c target;
  mret (form,
        Build_Classes (widgets c)
          (<[target := <[SortableModelAdmin.sortable self := order]> target_dict]>
             (dicts c))
          (metas c)).

Section get_changelist_form.

Context {Request : Type}.

(** [ModelAdmin.get_changelist_form], the framework's method: it builds the
    form class, or raises. *)
Variable super_get_changelist_form :
  Request → Classes → result (Form * Classes).

Definition get_changelist_form (self : SortableModelAdmin.t)
    (request : Request) (c : Classes) : result (Form * Classes) :=
  '(form, c) ← super_get_changelist_form request c;
  merge_form_meta self form c.

End get_changelist_form.

(** The dict [Meta.widgets] stands for, empty when there is none. *)
Definition resolved_widgets (c : Classes) (m : nat) : gmap string nat :=
  match metas c !! m with
  | Some (Some d) => default ∅ (dicts c !! d)
  | _ => ∅
  end.

(** Every reference leads to an object. *)
Definition valid (c : Classes) : Prop :=
  Forall (λ v, ∀ d, v = Some d → (d < length (dicts c))%nat) (metas c).

(** [SortableListForm.Meta.widgets['order']] is the widget at [a]. *)
Definition shared_order (c : Classes) (a : nat) : Prop :=
  resolved_widgets c SortableListForm_Meta !! "order" = Some a.

Definition form_valid (c : Classes) (form : Form) : Prop :=
  ∀ m, Meta form = Some m → (m < length (metas c))%nat.

End ChangelistForm.

(** ** The content-status list filter *)

Module ContentStatus.

(** A row of [content_models.Level], as far as the module reads it. *)
Record Level := Build_Level {
  pk : Z;
  title : string;
  model_path : string;
}.

Inductive filter_entry :=
| FieldFilter (name : string)
| ContentStatusFilter.

#[global] Instance filter_entry_eq_dec : EqDecision filter_entry.
Proof. solve_decision. Defined.

(** [self.list_filter]: [None], a tuple or a list. *)
Inductive filters :=
| NoFilters
| FilterTuple (l : list filter_entry)
| FilterList (l : list filter_entry).

Definition filter_items (v : filters) : list filter_entry :=
  match v with
  | NoFilters => []
  | FilterTuple l | FilterList l => l
  end.

(** [list(v)] *)
Definition list_of (v : filters) : result (list filter_entry) :=
  match v with
  | NoFilters => Raise TypeError
  | FilterTuple l | FilterList l => Ok l
  end.

(** ["%s.%s" % (app_label, model_name)] *)
Definition dotted (app_label model_name : string) : string :=
  app_label +:+ "." +:+ model_name.

(** [ContentStatusFilter.lookups]: the levels of the model, as pairs of key
    and title. *)
Definition lookups (app_label model_name : string) (levels : list Level)
  : list (Z * string) :=
  (λ l, (pk l, title l))
    <$> filter (λ l, model_path l = dotted app_label model_name) levels.

(** [db_get_list_filter]; [curr_model_path] is [str(self.model._meta)]. *)
Definition db_get_list_filter (curr_model_path : string) (levels : list Level)
    (list_filter : filters) : result filters :=
  let paths := model_path <$> levels in
  if bool_decide (curr_model_path ∈ paths) then
    l ← list_of list_filter;
    mret (FilterList (l ++ [ContentStatusFilter]))
  else mret list_filter.

Section queryset.

Context {Queryset : Type}.

(** [int(val)] of Python, and [Level.make_query] of the content-status
    package. *)
Variable py_int : string → result Z.
Variable make_query : Level → Queryset → Queryset.

(** [Level.objects.get(pk=n)] *)
Definition get_level (n : Z) (levels : list Level) : result Level :=
  match filter (λ l, pk l = n) levels with
  | [] => Raise (OtherError "DoesNotExist")
  | [l] => Ok l
  | _ => Raise (OtherError "MultipleObjectsReturned")
  end.

(** [ContentStatusFilter.queryset]; [val] is [self.value()]. *)
Definition queryset (val : option string) (levels : list Level)
    (qs : Queryset) : result Queryset :=
  match val with
  | None => mret qs
  | Some v =>
      if bool_decide (v = "") then mret qs
      else
        n ← py_int v;
        level ← get_level n levels;
        mret (make_query level qs)
  end.

End queryset.

End ContentStatus.

(** ** What [get_fieldsets] leaves alone *)

Module FieldsetFrame.

Import SortableStackedInlineBase.



(** The first group is a pair of a name and a non-empty options dict. *)
Definition first_options (fss : list fieldset) : option (gmap string pyseq) :=
  match fss with
  | (name :: LDict d :: _) :: _ =>
      if is_name name && negb (bool_decide (d = ∅)) then Some d else None
  | _ => None
  end.

End FieldsetFrame.

(** ** [get_fieldsets] on list objects *)

Module FieldsetObjects.

(** The loop of [get_fieldsets] changes list objects in place and nothing
    else: neither the dicts nor the tuples around them. Here a list is an
    object in a store, referred to by its address, so that one list reached
    from two groups is one list; tuples cannot be changed and are held by
    value. *)
Inductive value :=
| VNone
| VTuple (l : list string)
| VList (a : nat).

#[global] Instance value_eq_dec : EqDecision value.
Proof. solve_decision. Defined.

Inductive line :=
| LNone
| LName (name : string)
| LDict (d : gmap string value).

Definition fieldset : Type := list line.

(** The list objects. *)
Abbreviation store := (list (list string)).

Definition read (st : store) (a : nat) : result (list string) :=
  match st !! a with
  | Some l => Ok l
  | None => Raise (OtherError "dangling reference")
  end.

(** [x in v] *)
Definition contains (st : store) (x : string) (v : value) : result bool :=
  match v with
  | VNone => Raise TypeError
  | VTuple l => Ok (bool_decide (x ∈ l))
  | VList a => l ← read st a; mret (bool_decide (x ∈ l))
  end.

(** [v.remove(x)], in place. *)
Definition remove (st : store) (x : string) (v : value) : result store :=
  match v with
  | VList a => l ← read st a; mret (<[a := remove_first x l]> st)
  | VTuple _ | VNone => Raise AttributeError
  end.

(** [v.insert(0, x)], in place. *)
Definition insert0 (st : store) (x : string) (v : value) : result store :=
  match v with
  | VList a => l ← read st a; mret (<[a := x :: l]> st)
  | VTuple _ | VNone => Raise AttributeError
  end.

(** [for line in fieldset: ...]: the flag [sortable_added] and the store as
    the loop leaves them. *)
Fixpoint scan_lines (s : string) (sortable_added : bool) (lines : list line)
    (st : store) : result (bool * store) :=
  match lines with
  | [] => mret (sortable_added, st)
  | LDict d :: rest =>
      if decide (d = ∅) then scan_lines s sortable_added rest st
      else
        let fields := default VNone (d !! "fields") in
        present ← contains st s fields;
        st ← (if (present : bool) then remove st s fields else mret st);
        if negb sortable_added then
          st ← insert0 st s fields;
          mret (true, st)
        else scan_lines s sortable_added rest st
  | _ :: rest => scan_lines s sortable_added rest st
  end.

(** [for fieldset in fieldsets: ...] *)
Fixpoint scan_fieldsets (s : string) (sortable_added : bool)
    (fieldsets : list fieldset) (st : store) : result store :=
  match fieldsets with
  | [] => mret st
  | fs :: rest =>
      '(added, st) ← scan_lines s sortable_added fs st;
      scan_fieldsets s added rest st
  end.

(** [get_fieldsets]: the field sets the framework's method returned are
    returned, with the lists they refer to changed. *)
Definition get_fieldsets (self : SortableStackedInlineBase.t)
    (super_fieldsets : list fieldset) (st : store)
  : result (list fieldset * store) :=
  st ← scan_fieldsets (SortableStackedInlineBase.sortable self) false
         super_fieldsets st;
  mret (super_fieldsets, st).

(** The field names of each group, read through the store. *)
Definition value_items (st : store) (v : value) : list string :=
  match v with
  | VNone => []
  | VTuple l => l
  | VList a => default [] (st !! a)
  end.

Definition line_fields (st : store) (ln : line) : list string :=
  match ln with
  | LDict d => value_items st (default VNone (d !! "fields"))
  | _ => []
  end.

Definition groups (st : store) (fieldsets : list fieldset)
  : list (list string) :=
  (λ fs, concat (line_fields st <$> fs)) <$> fieldsets.

(** The field sets as [SortableStackedInlineBase] holds them, with every
    list read through the store. *)
Definition view_value (st : store) (v : value) : pyseq :=
  match v with
  | VNone => PyNone
  | VTuple l => PyTuple l
  | VList a => PyList (default [] (st !! a))
  end.

Definition view_line (st : store) (ln : line) : SortableStackedInlineBase.line :=
  match ln with
  | LNone => SortableStackedInlineBase.LNone
  | LName name => SortableStackedInlineBase.LName name
  | LDict d => SortableStackedInlineBase.LDict (view_value st <$> d)
  end.

Definition view (st : store) (fieldsets : list fieldset)
  : list SortableStackedInlineBase.fieldset :=
  (λ fs : list line, view_line st <$> fs) <$> (fieldsets : list (list line)).

(** The list objects the field sets refer to, one entry per reference. *)
Definition refs_dict (d : gmap string value) : list nat :=
  omap (λ kv : string * value,
          match kv.2 with
          | VList a => Some a
          | _ => None
          end) (map_to_list d).

Definition refs_line (ln : line) : list nat :=
  match ln with
  | LDict d => refs_dict d
  | _ => []
  end.

Definition refs_lines (lines : list line) : list nat :=
  concat (refs_line <$> lines).

Definition refs (fieldsets : list fieldset) : list nat :=
  concat (refs_lines <$> fieldsets).

(** No list object is referred to twice, and every reference leads to a
    list. *)
Definition separate (st : store) (fieldsets : list fieldset) : Prop :=
  NoDup (refs fieldsets) ∧ Forall (λ a, (a < length st)%nat) (refs fieldsets).

End FieldsetObjects.

(** * Properties *)

(** ** The monad and the Python operations *)

Lemma truthy_items v : truthy v = true ↔ items v ≠ [].
Proof.
  destruct v as [|l|l]; simpl; [naive_solver| |];
    (case_bool_decide; simpl; naive_solver).
Qed.

Lemma truthy_py_or v : truthy v = true → py_or v (PyList []) = v.
Proof. unfold py_or. by intros ->. Qed.

Lemma falsy_py_or v : truthy v = false → py_or v (PyList []) = PyList [].
Proof. unfold py_or. by intros ->. Qed.

Lemma py_in_truthy s v :
  truthy v = true → py_in s v = Ok (bool_decide (s ∈ items v)).
Proof. by destruct v. Qed.

Lemma py_list_truthy v : truthy v = true → py_list v = Ok (items v).
Proof. by destruct v. Qed.

Lemma occurrences_pos s v : s ∈ items v ↔ (0 < occurrences s v)%nat.
Proof.
  unfold occurrences. rewrite list_elem_of_In.
  rewrite (count_occ_In (λ a b : string, decide (a = b))). lia.
Qed.

Lemma occurrences_zero s v : s ∉ items v ↔ occurrences s v = 0%nat.
Proof. rewrite occurrences_pos. lia. Qed.

Lemma occurrences_snoc s l :
  occurrences s (PyList (l ++ [s])) = S (count_occ (λ a b : string, decide (a = b)) l s).
Proof.
  unfold occurrences. simpl. rewrite count_occ_app. simpl.
  destruct (decide (s = s)); [lia | congruence].
Qed.

(** ** The guarded appends of the two [__init__] methods *)

Section appends.

Import SortableTabularInlineBase SortableModelAdmin.

Lemma append_if_set_and_missing_present s v :
  s ∈ items v → append_if_set_and_missing s v = Ok v.
Proof.
  intros Hin. unfold append_if_set_and_missing.
  destruct (truthy v) eqn:Ht; [|done].
  rewrite py_in_truthy by done. rewrite bool_decide_eq_true_2 by done. done.
Qed.

Lemma append_if_set_and_missing_absent s v :
  truthy v = true → s ∉ items v →
  append_if_set_and_missing s v = Ok (PyList (items v ++ [s])).
Proof.
  intros Ht Hnin. unfold append_if_set_and_missing. rewrite Ht.
  rewrite py_in_truthy by done. rewrite bool_decide_eq_false_2 by done.
  simpl. by rewrite py_list_truthy.
Qed.

Lemma append_if_set_and_missing_falsy s v :
  truthy v = false → append_if_set_and_missing s v = Ok v.
Proof. intros Ht. unfold append_if_set_and_missing. by rewrite Ht. Qed.

Lemma append_if_set_and_missing_returns s v :
  ∃ v', append_if_set_and_missing s v = Ok v'.
Proof.
  destruct (truthy v) eqn:Ht.
  - destruct (decide (s ∈ items v)).
    + eexists. by apply append_if_set_and_missing_present.
    + eexists. by apply append_if_set_and_missing_absent.
  - eexists. by apply append_if_set_and_missing_falsy.
Qed.

Lemma append_if_missing_present s v :
  s ∈ items v → append_if_missing s v = Ok v.
Proof.
  intros Hin. unfold append_if_missing.
  assert (truthy v = true) as Ht.
  { apply truthy_items. intros E. rewrite E in Hin. by apply elem_of_nil in Hin. }
  rewrite truthy_py_or by done. rewrite py_in_truthy by done.
  by rewrite bool_decide_eq_true_2.
Qed.

Lemma append_if_missing_absent s v :
  s ∉ items v → append_if_missing s v = Ok (PyList (items v ++ [s])).
Proof.
  intros Hnin. unfold append_if_missing.
  destruct (truthy v) eqn:Ht.
  - rewrite truthy_py_or by done. rewrite py_in_truthy by done.
    rewrite bool_decide_eq_false_2 by done. simpl. by rewrite py_list_truthy.
  - rewrite falsy_py_or by done. simpl.
    assert (items v = []) as ->; [|done].
    destruct (items v) eqn:E; [done|].
    assert (truthy v = true); [|congruence].
    apply truthy_items. by rewrite E.
Qed.

Lemma append_if_missing_elem s v :
  ∃ v', append_if_missing s v = Ok v' ∧ s ∈ items v'.
Proof.
  destruct (decide (s ∈ items v)) as [Hin|Hnin].
  - exists v. split; [by apply append_if_missing_present | done].
  - exists (PyList (items v ++ [s])).
    split; [by apply append_if_missing_absent |]. simpl. set_solver.
Qed.

Lemma append_if_missing_once s v :
  (occurrences s v ≤ 1)%nat →
  ∃ v', append_if_missing s v = Ok v' ∧ occurrences s v' = 1%nat.
Proof.
  intros Hle. destruct (decide (s ∈ items v)) as [Hin|Hnin].
  - exists v. split; [by apply append_if_missing_present |].
    apply occurrences_pos in Hin. lia.
  - exists (PyList (items v ++ [s])).
    split; [by apply append_if_missing_absent |].
    rewrite occurrences_snoc. apply occurrences_zero in Hnin.
    unfold occurrences in Hnin. by rewrite Hnin.
Qed.

Lemma append_if_set_and_missing_once s v :
  truthy v = true → (occurrences s v ≤ 1)%nat →
  ∃ v', append_if_set_and_missing s v = Ok v' ∧ occurrences s v' = 1%nat.
Proof.
  intros Ht Hle. destruct (decide (s ∈ items v)) as [Hin|Hnin].
  - exists v. split; [by apply append_if_set_and_missing_present |].
    apply occurrences_pos in Hin. lia.
  - exists (PyList (items v ++ [s])).
    split; [by apply append_if_set_and_missing_absent |].
    rewrite occurrences_snoc. apply occurrences_zero in Hnin.
    unfold occurrences in Hnin. by rewrite Hnin.
Qed.

Lemma fields_step_truthy s v :
  truthy v = true → fields_step s v = append_if_set_and_missing s v.
Proof. intros Ht. unfold fields_step. by rewrite truthy_py_or. Qed.

(** An empty or unset [fields] becomes the empty list and stays without the
    sortable field. *)
Lemma fields_step_falsy s v : truthy v = false → fields_step s v = Ok (PyList []).
Proof. intros Ht. unfold fields_step. by rewrite falsy_py_or. Qed.

End appends.

(** ** The field lists after [__init__] *)

(** C3, as stated, fails: a tabular inline whose [fields] is [None] comes out
    of [__init__] with [fields = []], which does not hold the sortable
    field. *)
Lemma init_unset_fields_left_empty :
  SortableTabularInlineBase.__init__
    (SortableTabularInlineBase.Build "order" PyNone PyNone)
  = Ok (SortableTabularInlineBase.Build "order" (PyTuple ["order"]) (PyList []))
  ∧ occurrences "order" (PyList []) = 0%nat.
Proof. split; reflexivity. Qed.

(** C3, amended: after [__init__], [fields] of a tabular inline and
    [list_display] of a model admin hold the sortable field exactly once when
    they were non-empty beforehand and held it at most once; [list_editable]
    holds it exactly once when it held it at most once beforehand, also when
    it was empty or [None]. *)
Theorem init_field_lists_hold_sortable_once :
  (∀ ti : SortableTabularInlineBase.t,
     truthy (SortableTabularInlineBase.fields ti) = true →
     (occurrences (SortableTabularInlineBase.sortable ti)
                  (SortableTabularInlineBase.fields ti) ≤ 1)%nat →
     ∃ ti',
       SortableTabularInlineBase.__init__ ti = Ok ti' ∧
       SortableTabularInlineBase.sortable ti'
       = SortableTabularInlineBase.sortable ti ∧
       occurrences (SortableTabularInlineBase.sortable ti')
                   (SortableTabularInlineBase.fields ti') = 1%nat) ∧
  (∀ ma : SortableModelAdmin.t,
     truthy (SortableModelAdmin.list_display ma) = true →
     (occurrences (SortableModelAdmin.sortable ma)
                  (SortableModelAdmin.list_display ma) ≤ 1)%nat →
     ∃ ma',
       SortableModelAdmin.__init__ ma = Ok ma' ∧
       SortableModelAdmin.sortable ma' = SortableModelAdmin.sortable ma ∧
       occurrences (SortableModelAdmin.sortable ma')
                   (SortableModelAdmin.list_display ma') = 1%nat) ∧
  (∀ ma : SortableModelAdmin.t,
     (occurrences (SortableModelAdmin.sortable ma)
                  (SortableModelAdmin.list_editable ma) ≤ 1)%nat →
     ∃ ma',
       SortableModelAdmin.__init__ ma = Ok ma' ∧
       SortableModelAdmin.sortable ma' = SortableModelAdmin.sortable ma ∧
       occurrences (SortableModelAdmin.sortable ma')
                   (SortableModelAdmin.list_editable ma') = 1%nat).
Proof.
  split; [|split].
  - intros ti Htf Hf.
    destruct (append_if_set_and_missing_once _ _ Htf Hf) as (f' & Ef & Hf').
    eexists. split.
    + unfold SortableTabularInlineBase.__init__. simpl.
      rewrite fields_step_truthy by done. rewrite Ef. reflexivity.
    + simpl. done.
  - intros ma Htd Hd.
    destruct (append_if_set_and_missing_once _ _ Htd Hd) as (d' & Ed & Hd').
    destruct (append_if_missing_elem (SortableModelAdmin.sortable ma)
                (SortableModelAdmin.list_editable ma)) as (e' & Ee & _).
    destruct (append_if_missing_elem (SortableModelAdmin.sortable ma)
                (SortableModelAdmin.exclude ma)) as (x' & Ex & _).
    eexists. split.
    + unfold SortableModelAdmin.__init__,
        SortableModelAdmin.list_display_step,
        SortableModelAdmin.list_editable_step,
        SortableModelAdmin.exclude_step.
      rewrite Ed. simpl. rewrite Ee. simpl. rewrite Ex. reflexivity.
    + simpl. done.
  - intros ma He.
    destruct (append_if_set_and_missing_returns (SortableModelAdmin.sortable ma)
                (SortableModelAdmin.list_display ma)) as (d' & Ed).
    destruct (append_if_missing_once _ _ He) as (e' & Ee & He').
    destruct (append_if_missing_elem (SortableModelAdmin.sortable ma)
                (SortableModelAdmin.exclude ma)) as (x' & Ex & _).
    eexists. split.
    + unfold SortableModelAdmin.__init__,
        SortableModelAdmin.list_display_step,
        SortableModelAdmin.list_editable_step,
        SortableModelAdmin.exclude_step.
      rewrite Ed. simpl. rewrite Ee. simpl. rewrite Ex. reflexivity.
    + simpl. done.
Qed.

Lemma init_field_lists_hold_sortable_once_witness :
  (∃ ti',
     SortableTabularInlineBase.__init__
       (SortableTabularInlineBase.Build "order" PyNone (PyTuple ["name"; "order"]))
     = Ok ti' ∧
     SortableTabularInlineBase.fields ti' = PyTuple ["name"; "order"]) ∧
  (∃ ma',
     SortableModelAdmin.__init__
       (SortableModelAdmin.Build "order" PyNone (PyTuple ["__str__"]) PyNone
          PyNone 500) = Ok ma' ∧
     SortableModelAdmin.list_display ma' = PyList ["__str__"; "order"]) ∧
  (∃ ma',
     SortableModelAdmin.__init__
       (SortableModelAdmin.Build "order" PyNone (PyTuple []) PyNone PyNone 500)
     = Ok ma' ∧
     SortableModelAdmin.list_display ma' = PyTuple [] ∧
     SortableModelAdmin.list_editable ma' = PyList ["order"]).
Proof.
  destruct init_field_lists_hold_sortable_once as (Hfields & Hdisplay & Heditable).
  split; [|split].
  - destruct (Hfields (SortableTabularInlineBase.Build "order" PyNone
                         (PyTuple ["name"; "order"])))
      as (ti' & E & _); [reflexivity | vm_compute; lia |].
    exists ti'. split; [exact E|].
    vm_compute in E. by injection E as <-.
  - destruct (Hdisplay (SortableModelAdmin.Build "order" PyNone
                          (PyTuple ["__str__"]) PyNone PyNone 500))
      as (ma' & E & _); [reflexivity | vm_compute; lia |].
    exists ma'. split; [exact E|].
    vm_compute in E. by injection E as <-.
  - destruct (Heditable (SortableModelAdmin.Build "order" PyNone (PyTuple [])
                           PyNone PyNone 500))
      as (ma' & E & _); [vm_compute; lia |].
    exists ma'. split; [exact E|].
    vm_compute in E. by injection E as <-.
Defined.

(** C9: after [SortableModelAdmin.__init__] the sortable field is a member of
    [list_editable] and of [exclude], whatever they were before, [None] and
    empty included. *)
Theorem init_list_editable_and_exclude_hold_sortable (ma : SortableModelAdmin.t) :
  ∃ ma', SortableModelAdmin.__init__ ma = Ok ma' ∧
    SortableModelAdmin.sortable ma' = SortableModelAdmin.sortable ma ∧
    SortableModelAdmin.sortable ma ∈ items (SortableModelAdmin.list_editable ma') ∧
    SortableModelAdmin.sortable ma ∈ items (SortableModelAdmin.exclude ma').
Proof.
  set (s := SortableModelAdmin.sortable ma).
  assert (∃ d', SortableModelAdmin.list_display_step s
                  (SortableModelAdmin.list_display ma) = Ok d') as (d' & Ed).
  { unfold SortableModelAdmin.list_display_step.
    destruct (truthy (SortableModelAdmin.list_display ma)) eqn:Ht.
    - destruct (decide (s ∈ items (SortableModelAdmin.list_display ma))).
      + eexists. by apply append_if_set_and_missing_present.
      + eexists. by apply append_if_set_and_missing_absent.
    - eexists. by apply append_if_set_and_missing_falsy. }
  destruct (append_if_missing_elem s (SortableModelAdmin.list_editable ma))
    as (e' & Ee & He).
  destruct (append_if_missing_elem s (SortableModelAdmin.exclude ma))
    as (x' & Ex & Hx).
  eexists. split.
  - unfold SortableModelAdmin.__init__,
      SortableModelAdmin.list_editable_step, SortableModelAdmin.exclude_step.
    fold s. rewrite Ed. simpl. rewrite Ee. simpl. rewrite Ex. reflexivity.
  - simpl. done.
Qed.

(** C8: the append of [__init__] is idempotent: on a list that holds the
    sortable field already, each of the four appends ([fields],
    [list_display], [list_editable], [exclude]) returns the very same
    list. *)
Theorem init_append_idempotent (s : string) (v : pyseq) :
  s ∈ items v →
  SortableTabularInlineBase.fields_step s v = Ok v ∧
  SortableModelAdmin.list_display_step s v = Ok v ∧
  SortableModelAdmin.list_editable_step s v = Ok v ∧
  SortableModelAdmin.exclude_step s v = Ok v.
Proof.
  intros Hin.
  assert (truthy v = true) as Ht.
  { apply truthy_items. intros E. rewrite E in Hin. by apply elem_of_nil in Hin. }
  split; [|split; [|split]].
  - rewrite fields_step_truthy by done.
    by apply append_if_set_and_missing_present.
  - by apply append_if_set_and_missing_present.
  - by apply append_if_missing_present.
  - by apply append_if_missing_present.
Qed.

Lemma init_append_idempotent_witness :
  SortableTabularInlineBase.fields_step "order" (PyTuple ["name"; "order"])
    = Ok (PyTuple ["name"; "order"]) ∧
  SortableModelAdmin.list_display_step "order" (PyTuple ["name"; "order"])
    = Ok (PyTuple ["name"; "order"]) ∧
  SortableModelAdmin.list_editable_step "order" (PyTuple ["name"; "order"])
    = Ok (PyTuple ["name"; "order"]) ∧
  SortableModelAdmin.exclude_step "order" (PyTuple ["name"; "order"])
    = Ok (PyTuple ["name"; "order"]).
Proof.
  apply (init_append_idempotent "order" (PyTuple ["name"; "order"])).
  simpl. set_solver.
Defined.

(** Running either [__init__] a second time changes nothing. *)
Lemma tabular_init_twice ti ti' :
  SortableTabularInlineBase.__init__ ti = Ok ti' →
  SortableTabularInlineBase.__init__ ti' = Ok ti'.
Proof.
  destruct ti as [s o f]. unfold SortableTabularInlineBase.__init__. simpl.
  destruct (SortableTabularInlineBase.fields_step s f) as [f'|] eqn:E;
    simpl; [|done].
  intros [= <-]. simpl.
  assert (SortableTabularInlineBase.fields_step s f' = Ok f') as ->; [|done].
  destruct (truthy f) eqn:Ht.
  - rewrite fields_step_truthy in E by done.
    destruct (decide (s ∈ items f)) as [Hin|Hnin].
    + rewrite append_if_set_and_missing_present in E by done.
      injection E as <-. by apply init_append_idempotent.
    + rewrite append_if_set_and_missing_absent in E by done.
      injection E as <-. apply init_append_idempotent. simpl. set_solver.
  - rewrite fields_step_falsy in E by done. by injection E as <-.
Qed.

(** ** The forced ordering of the change list *)

(** C2: [get_ordering] returns the two-element list of the sortable field
    and the primary key's name behind a minus sign, for every request and
    queryset, and the change list class chosen by [get_changelist] uses it
    whatever ordering is configured on the admin or the model. *)
Theorem get_ordering_forced {Request Queryset : Type}
    (self : SortableChangeList.t) (request : Request) (queryset : Queryset)
    (configured : list string) :
  SortableChangeList.get_ordering self request queryset
  = [SortableModelAdmin.sortable (SortableChangeList.model_admin self);
     "-" +:+ SortableChangeList.pk_name (SortableChangeList.model self)]
  ∧ SortableChangeList.ordering_of
      (SortableModelAdmin.get_changelist
         (SortableChangeList.model_admin self) request)
      configured self request queryset
    = SortableChangeList.get_ordering self request queryset.
Proof. split; reflexivity. Qed.

Example get_ordering_ignores_configuration :
  SortableChangeList.get_ordering
    (SortableChangeList.Build
       (SortableModelAdmin.Build "position" (PyTuple ["-name"])
          (PyTuple ["name"]) PyNone PyNone 500)
       (SortableChangeList.Build_Options "id" (PyTuple ["name"])))
    () ()
  = ["position"; "-id"].
Proof. reflexivity. Qed.

(** ** The sequence number assigned by [save_model] *)

Section sequence.

Import Model.

(** [sql_max] is the greatest number of the column. *)
Lemma sql_max_Some col N :
  sql_max col = Some N → Some N ∈ col ∧ ∀ m, Some m ∈ col → (m ≤ N)%Z.
Proof.
  revert N. induction col as [|c col IH]; intros N; [|destruct c as [n|]]; simpl.
  - done.
  - destruct (sql_max col) as [m|] eqn:E.
    + intros [= <-]. destruct (IH m eq_refl) as [Hin Hle]. split.
      * apply elem_of_cons.
        destruct (Z.max_spec n m) as [[_ ->]|[_ ->]]; [by right | by left].
      * intros k [[= ->]|Hk]%elem_of_cons; [lia|]. specialize (Hle k Hk). lia.
    + intros [= <-]. split; [by apply elem_of_cons; left|].
      intros k [[= ->]|Hk]%elem_of_cons; [lia|].
      exfalso. clear IH. induction col as [|c col IHc]; [|destruct c]; simpl in *.
      * by apply elem_of_nil in Hk.
      * destruct (sql_max col); done.
      * apply elem_of_cons in Hk as [?|Hk]; [done | by apply IHc].
  - intros E. destruct (IH N E) as [Hin Hle].
    split; [by apply elem_of_cons; right|].
    intros k [?|Hk]%elem_of_cons; [done | by apply Hle].
Qed.

Lemma sql_max_None col : sql_max col = None ↔ ∀ c, c ∈ col → c = None.
Proof.
  induction col as [|c0 col IH]; [|destruct c0 as [n|]]; simpl.
  - split; [|done]. intros _ c Hc. by apply elem_of_nil in Hc.
  - destruct (sql_max col); split; try done;
      intros H; specialize (H (Some n)); discriminate H; by apply elem_of_cons; left.
  - rewrite IH. split.
    + intros H c [->|Hc]%elem_of_cons; [done | by apply H].
    + intros H c Hc. apply H. by apply elem_of_cons; right.
Qed.

Lemma sql_max_no_rows field : sql_max (column field []) = None.
Proof. reflexivity. Qed.

(** The aggregate always has the key [save_model] reads. *)
Lemma aggregate_Max_getitem field rows :
  py_getitem (aggregate_Max field rows) (field +:+ "__max")
  = Ok (of_sql (sql_max (column field rows))).
Proof.
  unfold py_getitem, aggregate_Max. by rewrite lookup_singleton_eq.
Qed.

Lemma getattr_setattr o name v : getattr (setattr o name v) name = Some v.
Proof.
  unfold getattr, setattr. destruct (decide (name = "pk")); simpl.
  - done.
  - by rewrite lookup_insert_eq.
Qed.

Lemma assign_order_new self obj rows :
  val_truthy (pk obj) = false →
  SortableModelAdmin.assign_order self obj rows
  = Ok (setattr obj (SortableModelAdmin.sortable self)
          (match sql_max (column (SortableModelAdmin.sortable self) rows) with
           | Some N => VInt (N + 1)
           | None => VInt 1
           end)).
Proof.
  intros Hpk. unfold SortableModelAdmin.assign_order. rewrite Hpk. simpl.
  rewrite aggregate_Max_getitem. simpl.
  by destruct (sql_max _).
Qed.

Lemma assign_order_existing self obj rows :
  val_truthy (pk obj) = true →
  SortableModelAdmin.assign_order self obj rows = Ok obj.
Proof.
  intros Hpk. unfold SortableModelAdmin.assign_order. by rewrite Hpk.
Qed.

End sequence.

(** C1: for an object without a primary key, when the maximum of the
    sortable column over the existing rows is [N], [save_model] sets the
    object's sortable attribute to [N + 1] and hands that object to the
    framework's save. *)
Theorem save_model_new_row_gets_max_plus_one {Request Form : Type}
    (super_save_model : Request → Model.Obj → Form → bool → list Model.Obj →
                        result (Model.Obj * list Model.Obj))
    (self : SortableModelAdmin.t) (request : Request) (obj : Model.Obj)
    (form : Form) (change : bool) (rows : list Model.Obj) (N : Z) :
  Model.pk obj = VNone →
  Model.sql_max (Model.column (SortableModelAdmin.sortable self) rows) = Some N →
  let obj' := Model.setattr obj (SortableModelAdmin.sortable self) (VInt (N + 1)) in
  SortableModelAdmin.assign_order self obj rows = Ok obj' ∧
  Model.getattr obj' (SortableModelAdmin.sortable self) = Some (VInt (N + 1)) ∧
  SortableModelAdmin.save_model super_save_model self request obj form change rows
  = super_save_model request obj' form change rows.
Proof.
  intros Hpk Hmax obj'.
  assert (SortableModelAdmin.assign_order self obj rows = Ok obj') as E.
  { rewrite assign_order_new by (by rewrite Hpk). by rewrite Hmax. }
  split; [done|]. split; [apply getattr_setattr|].
  unfold SortableModelAdmin.save_model. by rewrite E.
Qed.

Lemma save_model_new_row_gets_max_plus_one_witness :
  let rows := [Model.Build_Obj (VInt 1) {[ "order" := VInt 3 ]};
               Model.Build_Obj (VInt 2) {[ "order" := VInt 7 ]};
               Model.Build_Obj (VInt 3) {[ "order" := VNone ]}] in
  let obj := Model.Build_Obj VNone {[ "title" := VStr "new" ]} in
  SortableModelAdmin.save_model
    (λ (_ : unit) o (_ : unit) (_ : bool) rs, Ok (o, rs ++ [o]))
    (SortableModelAdmin.Build "order" PyNone PyNone PyNone PyNone 500)
    () obj () false rows
  = Ok (Model.setattr obj "order" (VInt 8),
        rows ++ [Model.setattr obj "order" (VInt 8)]).
Proof.
  intros rows obj.
  apply (save_model_new_row_gets_max_plus_one
           (λ (_ : unit) o (_ : unit) (_ : bool) rs, Ok (o, rs ++ [o]))
           (SortableModelAdmin.Build "order" PyNone PyNone PyNone PyNone 500)
           () obj () false rows 7); reflexivity.
Defined.

(** C5: for a new object, when the aggregate maximum is absent, the addition
    raises [TypeError], the handler sets the sequence value to 1, and
    [save_model] goes on to the framework's save with that object; nothing is
    raised before it. *)
Theorem save_model_first_row_gets_one {Request Form : Type}
    (super_save_model : Request → Model.Obj → Form → bool → list Model.Obj →
                        result (Model.Obj * list Model.Obj))
    (self : SortableModelAdmin.t) (request : Request) (obj : Model.Obj)
    (form : Form) (change : bool) (rows : list Model.Obj) :
  Model.pk obj = VNone →
  Model.sql_max (Model.column (SortableModelAdmin.sortable self) rows) = None →
  let s := SortableModelAdmin.sortable self in
  let obj' := Model.setattr obj s (VInt 1) in
  (py_getitem (Model.aggregate_Max s rows) (s +:+ "__max") ≫= py_add1)
    = Raise TypeError ∧
  SortableModelAdmin.assign_order self obj rows = Ok obj' ∧
  Model.getattr obj' s = Some (VInt 1) ∧
  SortableModelAdmin.save_model super_save_model self request obj form change rows
  = super_save_model request obj' form change rows.
Proof.
  intros Hpk Hmax s obj'. subst s obj'.
  assert (SortableModelAdmin.assign_order self obj rows
          = Ok (Model.setattr obj (SortableModelAdmin.sortable self) (VInt 1)))
    as E.
  { rewrite assign_order_new by (by rewrite Hpk). by rewrite Hmax. }
  split; [|split; [done|split; [apply getattr_setattr|]]].
  - rewrite aggregate_Max_getitem. simpl. by rewrite Hmax.
  - unfold SortableModelAdmin.save_model. by rewrite E.
Qed.

Lemma save_model_first_row_gets_one_witness :
  let obj := Model.Build_Obj VNone {[ "title" := VStr "first" ]} in
  SortableModelAdmin.save_model
    (λ (_ : unit) o (_ : unit) (_ : bool) rs, Ok (o, rs ++ [o]))
    (SortableModelAdmin.Build "order" PyNone PyNone PyNone PyNone 500)
    () obj () false []
  = Ok (Model.setattr obj "order" (VInt 1), [Model.setattr obj "order" (VInt 1)]).
Proof.
  intros obj.
  apply (save_model_first_row_gets_one
           (λ (_ : unit) o (_ : unit) (_ : bool) rs, Ok (o, rs ++ [o]))
           (SortableModelAdmin.Build "order" PyNone PyNone PyNone PyNone 500)
           () obj () false []); reflexivity.
Defined.

(** C7, as stated, fails: an object that has the primary key 0 is taken for
    a new one, and its sortable attribute is overwritten. *)
Lemma save_model_zero_pk_reassigned :
  let self := SortableModelAdmin.Build "order" PyNone PyNone PyNone PyNone 500 in
  let obj := Model.Build_Obj (VInt 0) {[ "order" := VInt 5 ]} in
  let rows := [obj; Model.Build_Obj (VInt 1) {[ "order" := VInt 7 ]}] in
  Model.pk obj ≠ VNone ∧
  Model.getattr obj "order" = Some (VInt 5) ∧
  ∃ obj', SortableModelAdmin.assign_order self obj rows = Ok obj' ∧
          Model.getattr obj' "order" = Some (VInt 8).
Proof.
  intros self obj rows. split; [done|]. split; [reflexivity|].
  eexists. split; reflexivity.
Qed.

(** C7, amended: whenever the object's primary key is true in Python's sense
    (set, and neither 0 nor the empty string), [save_model] changes no
    attribute of the object and hands it as it is to the framework's
    save. *)
Theorem save_model_existing_row_untouched {Request Form : Type}
    (super_save_model : Request → Model.Obj → Form → bool → list Model.Obj →
                        result (Model.Obj * list Model.Obj))
    (self : SortableModelAdmin.t) (request : Request) (obj : Model.Obj)
    (form : Form) (change : bool) (rows : list Model.Obj) :
  val_truthy (Model.pk obj) = true →
  SortableModelAdmin.assign_order self obj rows = Ok obj ∧
  SortableModelAdmin.save_model super_save_model self request obj form change rows
  = super_save_model request obj form change rows.
Proof.
  intros Hpk.
  assert (SortableModelAdmin.assign_order self obj rows = Ok obj) as E
    by by apply assign_order_existing.
  split; [done|]. unfold SortableModelAdmin.save_model. by rewrite E.
Qed.

Lemma save_model_existing_row_untouched_witness :
  let obj := Model.Build_Obj (VInt 2) {[ "order" := VInt 3 ]} in
  let rows := [Model.Build_Obj (VInt 1) {[ "order" := VInt 9 ]}; obj] in
  SortableModelAdmin.save_model
    (λ (_ : unit) o (_ : unit) (_ : bool) rs, Ok (o, rs))
    (SortableModelAdmin.Build "order" PyNone PyNone PyNone PyNone 500)
    () obj () true rows
  = Ok (obj, rows).
Proof.
  intros obj rows.
  apply (save_model_existing_row_untouched
           (λ (_ : unit) o (_ : unit) (_ : bool) rs, Ok (o, rs))
           (SortableModelAdmin.Build "order" PyNone PyNone PyNone PyNone 500)
           () obj () true rows); reflexivity.
Defined.

(** ** The optional patches *)

Section patches.

Import Patches.

Lemma cms_patch_skipped env st :
  "cms" ∉ INSTALLED_APPS env ∨ import_PageForm env = ImportRaises ImportError →
  cms_patch env st = Ok st.
Proof.
  intros H. unfold cms_patch. case_bool_decide as Hin; [|done].
  destruct H as [H|H]; [done|]. by rewrite H.
Qed.

Lemma content_status_patch_skipped env st :
  "content_status" ∉ INSTALLED_APPS env
  ∨ import_content_models env = ImportRaises ImportError →
  content_status_patch env st = Ok st.
Proof.
  intros H. unfold content_status_patch. case_bool_decide as Hin; [|done].
  destruct H as [H|H]; [done|]. by rewrite H.
Qed.

(** With both packages installed and importable both patches are applied. *)
Lemma load_with_both_packages env st :
  "cms" ∈ INSTALLED_APPS env → "content_status" ∈ INSTALLED_APPS env →
  import_PageForm env = Imported → import_content_models env = Imported →
  load env st
  = Ok (Build_framework
          {[ "publication_date" := SuitSplitDateTimeWidget;
             "publication_end_date" := SuitSplitDateTimeWidget ]}
          db_get_list_filter).
Proof.
  intros H1 H2 E1 E2. unfold load, cms_patch, content_status_patch.
  rewrite !bool_decide_eq_true_2 by done. by rewrite E1, E2.
Qed.

(** Only [ImportError] is caught: any other exception raised while the
    package is imported leaves the module. *)
Lemma cms_patch_other_exception env st name :
  "cms" ∈ INSTALLED_APPS env →
  import_PageForm env = ImportRaises (OtherError name) →
  load env st = Raise (OtherError name).
Proof.
  intros H E. unfold load, cms_patch.
  rewrite bool_decide_eq_true_2 by done. by rewrite E.
Qed.

End patches.

(** C6: when each optional package is either absent from [INSTALLED_APPS] or
    listed but raising [ImportError] on import, the two patch blocks run
    without raising and change neither the page form's widgets nor the
    framework's [get_list_filter]. *)
Theorem load_without_optional_packages
    (env : Patches.environment) (st : Patches.framework) :
  "cms" ∉ Patches.INSTALLED_APPS env
  ∨ Patches.import_PageForm env = Patches.ImportRaises ImportError →
  "content_status" ∉ Patches.INSTALLED_APPS env
  ∨ Patches.import_content_models env = Patches.ImportRaises ImportError →
  Patches.load env st = Ok st.
Proof.
  intros Hcms Hcs. unfold Patches.load.
  rewrite cms_patch_skipped by done. simpl.
  by apply content_status_patch_skipped.
Qed.

Lemma load_without_optional_packages_witness :
  let st := Patches.Build_framework
              {[ "publication_date" := Patches.FrameworkWidget "DateTimeInput" ]}
              Patches.framework_get_list_filter in
  Patches.load
    (Patches.Build_environment ["django.contrib.admin"; "suit"; "content_status"]
       Patches.Imported (Patches.ImportRaises ImportError))
    st
  = Ok st.
Proof.
  intros st. apply load_without_optional_packages.
  - left. simpl. apply (bool_decide_unpack _). by vm_compute.
  - right. reflexivity.
Defined.

(** ** The order widget of the stacked inline *)

Section widget.

Import SortableListForm SortableStackedInlineBase.

Lemma stacked_attrs_built :
  <["rowclass" := " suit-sortable-stacked-row"]>
    (<["class" := "hide input-mini suit-sortable" +:+ " suit-sortable-stacked"]>
       order_attrs)
  = stacked_attrs.
Proof. by vm_compute. Qed.

Lemma insert_last {A} (l : list A) (x y : A) :
  <[length l := y]> (l ++ [x]) = l ++ [y].
Proof. rewrite insert_app_r_alt by done. by rewrite Nat.sub_diag. Qed.

Lemma shared_intact_loaded : shared_intact loaded.
Proof. reflexivity. Qed.

(** A call for the sortable field allocates one widget, the copy, and writes
    to the copy only. *)
Lemma formfield_for_dbfield_sortable self kwargs w :
  shared_intact w →
  formfield_for_dbfield self (sortable self) kwargs w
  = Ok (<["widget" := length (store w)]> kwargs,
        Build_World (store w ++ [NumberInput stacked_attrs]) (Meta_widgets w)).
Proof.
  unfold shared_intact, formfield_for_dbfield. intros H.
  rewrite decide_True by done.
  destruct (py_getitem (Meta_widgets w) "order") as [a|] eqn:Ea;
    simpl in *; [|done].
  unfold deepcopy. rewrite H. simpl.
  unfold get_attr, set_attr, deref. simpl.
  rewrite list_lookup_middle by done. simpl.
  assert (py_getitem order_attrs "class" = Ok "hide input-mini suit-sortable")
    as -> by reflexivity.
  simpl.
  rewrite !insert_last. rewrite list_lookup_middle by done. simpl.
  rewrite insert_last. by rewrite <- stacked_attrs_built.
Qed.

Lemma formfield_for_dbfield_other self name kwargs w :
  name ≠ sortable self →
  formfield_for_dbfield self name kwargs w = Ok (kwargs, w).
Proof. intros Hne. unfold formfield_for_dbfield. by rewrite decide_False. Qed.

Lemma shared_intact_address w :
  shared_intact w ↔
  ∃ a, Meta_widgets w !! "order" = Some a
       ∧ store w !! a = Some (NumberInput order_attrs).
Proof.
  unfold shared_intact, py_getitem, deref.
  destruct (Meta_widgets w !! "order") as [a|]; simpl.
  - destruct (store w !! a) as [x|] eqn:E; split.
    + intros [= ->]. eauto.
    + intros (a' & [= <-] & Ha). rewrite E in Ha. by injection Ha as ->.
    + done.
    + intros (a' & [= <-] & Ha). by rewrite E in Ha.
  - split; [done|]. by intros (a & ? & _).
Qed.

(** Allocation leaves the shared widget where and as it is. *)
Lemma shared_intact_grow w ext :
  shared_intact w →
  shared_intact (Build_World (store w ++ ext) (Meta_widgets w)).
Proof.
  rewrite !shared_intact_address. intros (a & Ha & Hs).
  exists a. split; [done|]. simpl. by apply lookup_app_l_Some.
Qed.

Lemma formfield_calls_keep_shared self calls w :
  shared_intact w →
  ∃ outs ext,
    formfield_calls self calls w
    = Ok (outs, Build_World (store w ++ ext) (Meta_widgets w))
    ∧ Forall2 (handed_on self (Build_World (store w ++ ext) (Meta_widgets w)))
              calls outs.
Proof.
  revert w. induction calls as [|[name kwargs] calls IH]; intros w Hw.
  - exists [], []. simpl. rewrite app_nil_r. destruct w. by split.
  - simpl. destruct (decide (name = sortable self)) as [->|Hne].
    + rewrite formfield_for_dbfield_sortable by done. simpl.
      destruct (IH _ (shared_intact_grow w [NumberInput stacked_attrs] Hw))
        as (outs & ext & E & Hall).
      simpl in E, Hall. rewrite E. simpl.
      rewrite <- app_assoc in *. simpl in *.
      eexists _, _. split; [reflexivity|].
      constructor; [|done].
      unfold handed_on. simpl. rewrite decide_True by done.
      exists (length (store w)). split; [done|]. split.
      * apply shared_intact_address in Hw as (a & Ha & Hs).
        rewrite Ha. intros [= ->].
        apply lookup_lt_Some in Hs. lia.
      * unfold deref. simpl. by rewrite list_lookup_middle.
    + rewrite formfield_for_dbfield_other by done. simpl.
      destruct (IH _ Hw) as (outs & ext & E & Hall).
      rewrite E. simpl. eexists _, _. split; [reflexivity|].
      constructor; [|done].
      unfold handed_on. simpl. by rewrite decide_False.
Qed.

(** The tabular inline hands on the shared widget itself. *)
Lemma tabular_formfield_shares self kwargs w a :
  Meta_widgets w !! "order" = Some a →
  SortableTabularInlineBase.formfield_for_dbfield self
    (SortableTabularInlineBase.sortable self) kwargs w
  = Ok (<["widget" := a]> kwargs, w).
Proof.
  intros Ha. unfold SortableTabularInlineBase.formfield_for_dbfield.
  rewrite decide_True by done. unfold py_getitem. by rewrite Ha.
Qed.

End widget.

(** C10: starting from the loaded module and for any number of calls of the
    stacked inline's [formfield_for_dbfield], the shared order widget keeps
    its attributes (class [hide input-mini suit-sortable]), and every call
    for the sortable field hands on another widget, whose class is
    [hide input-mini suit-sortable suit-sortable-stacked] and whose rowclass
    is [ suit-sortable-stacked-row]. *)
Theorem stacked_widget_is_a_copy (self : SortableStackedInlineBase.t)
    (calls : list (string * gmap string nat)) :
  ∃ outs w',
    SortableStackedInlineBase.formfield_calls self calls SortableListForm.loaded
    = Ok (outs, w') ∧
    SortableListForm.shared_intact w' ∧
    Forall2
      (λ call out,
         call.1 = SortableStackedInlineBase.sortable self →
         ∃ c, out !! "widget" = Some c
              ∧ SortableListForm.Meta_widgets w' !! "order" ≠ Some c
              ∧ SortableListForm.deref w' c
                = Ok (SortableListForm.NumberInput
                        {[ "class" := "hide input-mini suit-sortable suit-sortable-stacked";
                           "rowclass" := " suit-sortable-stacked-row" ]}))
      calls outs.
Proof.
  destruct (formfield_calls_keep_shared self calls SortableListForm.loaded
              shared_intact_loaded) as (outs & ext & E & Hall).
  eexists _, _. split; [exact E|]. split.
  - apply (shared_intact_grow SortableListForm.loaded ext), shared_intact_loaded.
  - eapply Forall2_impl; [exact Hall|].
    intros [name kwargs] out H Hname. unfold SortableStackedInlineBase.handed_on in H. simpl in *.
    rewrite decide_True in H by done.
    destruct H as (c & -> & Hc & Hd).
    exists c. split; [by rewrite lookup_insert_eq | done].
Qed.

(** ** The field sets of the stacked inline *)

Section fieldsets.

Import SortableStackedInlineBase.

Abbreviation count := (count_occ (λ a b : string, decide (a = b))).

Lemma remove_first_absent s l : s ∉ l → remove_first s l = l.
Proof.
  induction l as [|y l IH]; simpl; [done|].
  intros Hnin. apply not_elem_of_cons in Hnin as [Hne Hnin].
  rewrite decide_False by done. by rewrite IH.
Qed.

Lemma remove_first_once s l : (count l s ≤ 1)%nat → s ∉ remove_first s l.
Proof.
  induction l as [|y l IH]; simpl.
  - intros _. apply not_elem_of_nil.
  - destruct (decide (y = s)) as [->|Hne].
    + rewrite decide_True by done. intros Hle.
      apply (occurrences_zero s (PyList l)). unfold occurrences. simpl. lia.
    + rewrite decide_False by done. intros Hle.
      apply not_elem_of_cons. split; [done | by apply IH].
Qed.


Lemma scan_lines_name s added name rest :
  is_name name = true →
  scan_lines s added (name :: rest)
  = scan_lines s added rest ≫= λ '(rest', a), mret (name :: rest', a).
Proof. by destruct name. Qed.

End fieldsets.

(** C4: the field sets [get_fieldsets] returns do not always hold the
    sortable field exactly once. [remove] deletes one occurrence: here the
    second group names the field twice, and the field sets returned still
    name it there, once in the first group and once in the second. *)
Theorem get_fieldsets_leaves_second_occurrence :
  let fieldsets :=
    [[FieldsetObjects.LNone;
      FieldsetObjects.LDict {[ "fields" := FieldsetObjects.VList 0 ]}];
     [FieldsetObjects.LName "Extra";
      FieldsetObjects.LDict {[ "fields" := FieldsetObjects.VList 1 ]}]] in
  let st := [["name"]; ["order"; "note"; "order"]] in
  ∃ st',
    FieldsetObjects.get_fieldsets
      (SortableStackedInlineBase.Build "order" PyNone) fieldsets st
    = Ok (fieldsets, st')
    ∧ FieldsetObjects.groups st fieldsets
      = [["name"]; ["order"; "note"; "order"]]
    ∧ FieldsetObjects.groups st' fieldsets
      = [["order"; "name"]; ["note"; "order"]].
Proof. intros fieldsets st. eexists. repeat split; reflexivity. Qed.

(** The same loop on one list object reached from two groups: what the first
    group receives the second takes away, and no group names the sortable
    field in the end. *)
Lemma get_fieldsets_shared_list_loses_sortable :
  let fieldsets :=
    [[FieldsetObjects.LNone;
      FieldsetObjects.LDict {[ "fields" := FieldsetObjects.VList 0 ]}];
     [FieldsetObjects.LName "Extra";
      FieldsetObjects.LDict {[ "fields" := FieldsetObjects.VList 0 ]}]] in
  ∃ st',
    FieldsetObjects.get_fieldsets
      (SortableStackedInlineBase.Build "order" PyNone) fieldsets [["name"]]
    = Ok (fieldsets, st')
    ∧ FieldsetObjects.groups st' fieldsets = [["name"]; ["name"]].
Proof. intros fieldsets. eexists. split; reflexivity. Qed.

(** A later group whose ["fields"] is a tuple is read only, as long as it
    does not name the sortable field. *)
Lemma get_fieldsets_later_tuple_read_only :
  let fieldsets :=
    [[FieldsetObjects.LNone;
      FieldsetObjects.LDict {[ "fields" := FieldsetObjects.VList 0 ]}];
     [FieldsetObjects.LName "Extra";
      FieldsetObjects.LDict {[ "fields" := FieldsetObjects.VTuple ["note"] ]}]] in
  ∃ st',
    FieldsetObjects.get_fieldsets
      (SortableStackedInlineBase.Build "order" PyNone) fieldsets
      [["name"; "order"]]
    = Ok (fieldsets, st')
    ∧ FieldsetObjects.groups st' fieldsets = [["order"; "name"]; ["note"]].
Proof. intros fieldsets. eexists. split; reflexivity. Qed.

(** ** Lists as objects and lists as values *)

Section objects.

Import FieldsetObjects.

Lemma elem_of_refs_dict d k a : d !! k = Some (VList a) → a ∈ refs_dict d.
Proof.
  intros Hk. unfold refs_dict. apply list_elem_of_omap.
  exists (k, VList a). split; [by apply elem_of_map_to_list | done].
Qed.

Lemma refs_dict_fields_only d a k :
  NoDup (refs_dict d) → d !! "fields" = Some (VList a) → k ≠ "fields" →
  d !! k ≠ Some (VList a).
Proof.
  intros Hnd Hf Hk Hka.
  assert (refs_dict d ≡ₚ a :: refs_dict (delete "fields" d)) as Hp.
  { unfold refs_dict.
    by rewrite <- (map_to_list_delete d "fields" (VList a)) by done. }
  rewrite Hp in Hnd. apply NoDup_cons in Hnd as [Hnin _].
  apply Hnin. apply (elem_of_refs_dict _ k). by rewrite lookup_delete_ne.
Qed.

Lemma view_value_agree st st' v :
  (∀ a, v = VList a → st' !! a = st !! a) → view_value st' v = view_value st v.
Proof. destruct v as [|l|a]; simpl; [done..|]. intros H. by rewrite H. Qed.

Lemma view_line_agree st st' ln :
  (∀ a, a ∈ refs_line ln → st' !! a = st !! a) →
  view_line st' ln = view_line st ln.
Proof.
  destruct ln as [| |d]; simpl; [done..|]. intros H. f_equal.
  apply map_fmap_ext. intros k v Hk. apply view_value_agree.
  intros a ->. apply H. by apply (elem_of_refs_dict _ k).
Qed.

Lemma view_lines_agree st st' (ls : list line) :
  (∀ a, a ∈ refs_lines ls → st' !! a = st !! a) →
  view_line st' <$> ls = view_line st <$> ls.
Proof.
  induction ls as [|ln ls IH]; [done|]. intros H. rewrite !fmap_cons.
  unfold refs_lines in H. simpl in H. f_equal.
  - apply view_line_agree. intros a Ha. apply H, elem_of_app. by left.
  - apply IH. intros a Ha. apply H, elem_of_app. by right.
Qed.

(** Writing to the list of ["fields"] shows in that entry and in no
    other. *)
Lemma view_dict_write st d a l' :
  NoDup (refs_dict d) → d !! "fields" = Some (VList a) →
  (a < length st)%nat →
  view_value (<[a := l']> st) <$> d
  = <["fields" := PyList l']> (view_value st <$> d).
Proof.
  intros Hnd Hf Hlt. apply map_eq. intros k.
  rewrite lookup_fmap. destruct (decide (k = "fields")) as [->|Hk].
  - rewrite lookup_insert_eq, Hf.
    change (Some (PyList (default [] (<[a := l']> st !! a))) = Some (PyList l')).
    by rewrite list_lookup_insert_eq.
  - rewrite lookup_insert_ne by done. rewrite lookup_fmap.
    destruct (d !! k) as [v|] eqn:Ek; simpl; [|done]. f_equal.
    apply view_value_agree. intros a' ->.
    apply list_lookup_insert_ne. intros <-.
    by apply (refs_dict_fields_only d a k).
Qed.

End objects.

Section objects_agree.

Import FieldsetObjects.

Abbreviation value_scan := SortableStackedInlineBase.scan_lines.

Lemma refs_lines_cons ln ls : refs_lines (ln :: ls) = refs_line ln ++ refs_lines ls.
Proof. reflexivity. Qed.

Lemma value_scan_dict s added dv rest :
  dv ≠ ∅ →
  value_scan s added (SortableStackedInlineBase.LDict dv :: rest)
  = (let fields := default PyNone (dv !! "fields") in
     present ← py_in s fields;
     fields ← (if present then py_remove s fields else mret fields);
     if negb added then
       fields ← py_insert0 s fields;
       mret (SortableStackedInlineBase.LDict (<["fields" := fields]> dv) :: rest,
             true)
     else
       value_scan s added rest
         ≫= λ '(rest', a),
              mret (SortableStackedInlineBase.LDict
                      (if (present : bool) then <["fields" := fields]> dv else dv)
                      :: rest', a)).
Proof. intros Hne. simpl. by rewrite decide_False. Qed.

Lemma scan_dict s added d rest st :
  d ≠ ∅ →
  scan_lines s added (LDict d :: rest) st
  = (let fields := default VNone (d !! "fields") in
     present ← contains st s fields;
     st ← (if (present : bool) then remove st s fields else mret st);
     if negb added then st ← insert0 st s fields; mret (true, st)
     else scan_lines s added rest st).
Proof. intros Hne. simpl. by rewrite decide_False. Qed.

Lemma read_Some (st : list (list string)) a l :
  st !! a = Some l → read st a = Ok l.
Proof. intros H. unfold read. by rewrite H. Qed.

Lemma view_value_list (st : list (list string)) a l :
  st !! a = Some l → view_value st (VList a) = PyList l.
Proof. intros H. unfold view_value. by rewrite H. Qed.

Lemma view_fields st (d : gmap string value) :
  default PyNone ((view_value st <$> d) !! "fields")
  = view_value st (default VNone (d !! "fields")).
Proof. rewrite lookup_fmap. by destruct (d !! "fields"). Qed.

(** On field sets that refer to no list twice, the loop on list objects and
    the loop on list values do the same: the same exception, or the same
    flag and, read through the store, the same lines. *)
Lemma scan_lines_agree s added ls : ∀ st,
  NoDup (refs_lines ls) →
  Forall (λ a, (a < length st)%nat) (refs_lines ls) →
  match scan_lines s added ls st with
  | Ok (added', st') =>
      value_scan s added (view_line st <$> ls)
      = Ok (view_line st' <$> ls, added')
      ∧ length st' = length st
      ∧ ∀ a, a ∉ refs_lines ls → st' !! a = st !! a
  | Raise e => value_scan s added (view_line st <$> ls) = Raise e
  end.
Proof.
  induction ls as [|ln ls IH]; intros st Hnd Hrange.
  { simpl. done. }
  rewrite refs_lines_cons in Hnd, Hrange.
  apply NoDup_app in Hnd as (Hnd_ln & Hdisj & Hnd_ls).
  apply Forall_app in Hrange as [Hrange_ln Hrange_ls].
  (* going on with the rest of the lines, from a store [st1] *)
  assert (∀ st1 ln_v,
            length st1 = length st →
            (∀ a, a ∉ refs_lines (ln :: ls) → st1 !! a = st !! a) →
            (∀ a, a ∈ refs_lines ls → st1 !! a = st !! a) →
            (∀ st', (∀ a, a ∉ refs_lines ls → st' !! a = st1 !! a) →
                    view_line st' ln = ln_v) →
            match scan_lines s added ls st1 with
            | Ok (added', st') =>
                (value_scan s added (view_line st <$> ls)
                   ≫= λ '(rest', a), mret (ln_v :: rest', a))
                = Ok (view_line st' <$> (ln :: ls), added')
                ∧ length st' = length st
                ∧ ∀ a, a ∉ refs_lines (ln :: ls) → st' !! a = st !! a
            | Raise e =>
                (value_scan s added (view_line st <$> ls)
                   ≫= λ '(rest', a), mret (ln_v :: rest', a))
                = Raise e
            end) as Hcont.
  { intros st1 ln_v Hlen Hout Hin Hln.
    assert (Forall (λ a, (a < length st1)%nat) (refs_lines ls)) as Hrange1
      by (by rewrite Hlen).
    specialize (IH st1 Hnd_ls Hrange1).
    rewrite (view_lines_agree st st1 ls Hin) in IH.
    destruct (scan_lines s added ls st1) as [[added' st']|e].
    - destruct IH as (E & Hlen' & Hframe). rewrite E. simpl.
      rewrite (Hln st' Hframe). split; [done|]. split; [congruence|].
      intros a Ha. rewrite Hframe, Hout; [done..|].
      intros Hin'. apply Ha. rewrite refs_lines_cons. apply elem_of_app. by right.
    - by rewrite IH. }
  assert (∀ (st1 : list (list string)) a, a ∈ refs_line ln →
            (∀ a', a' ∉ refs_lines ls → st1 !! a' = st !! a') →
            st1 !! a = st !! a) as Hkeep.
  { intros st1 a Ha H. apply H. by apply Hdisj. }
  destruct ln as [|name|d].
  - apply (Hcont st SortableStackedInlineBase.LNone); by intros.
  - apply (Hcont st (SortableStackedInlineBase.LName name)); by intros.
  - destruct (decide (d = ∅)) as [->|Hne].
    { simpl. rewrite fmap_empty. simpl.
      apply (Hcont st (SortableStackedInlineBase.LDict ∅)); by intros. }
    rewrite fmap_cons, scan_dict by done. simpl view_line.
    rewrite value_scan_dict by (by rewrite fmap_empty_iff).
    cbv zeta. rewrite view_fields.
    destruct (d !! "fields") as [[|l|a]|] eqn:Ef; simpl default.
    + done.
    + (* a tuple *)
      simpl. case_bool_decide as Hin; simpl; [done|].
      destruct added; simpl; [|done].
      apply (Hcont st (SortableStackedInlineBase.LDict (view_value st <$> d)));
        try by intros.
      intros st' Hst'. apply (view_line_agree st st' (LDict d)).
      intros a Ha. by apply Hkeep.
    + (* a list object *)
      assert (a ∈ refs_dict d) as Ha by (by apply (elem_of_refs_dict d "fields")).
      assert (a < length st)%nat as Hlt.
      { rewrite Forall_forall in Hrange_ln. by apply Hrange_ln. }
      destruct (lookup_lt_is_Some_2 st a Hlt) as [l El].
      assert (a ∉ refs_lines ls) as Hnot by (by apply Hdisj).
      assert (read st a = Ok l) as Hread by (by apply read_Some).
      rewrite (view_value_list st a l El).
      unfold contains. rewrite Hread. simpl.
      case_bool_decide as Hin; simpl.
      * rewrite Hread. simpl.
        destruct added; simpl.
        -- (* removed, and on with the rest *)
           apply (Hcont (<[a := remove_first s l]> st)
                    (SortableStackedInlineBase.LDict
                       (<["fields" := PyList (remove_first s l)]>
                          (view_value st <$> d)))).
           ++ by rewrite length_insert.
           ++ intros a' Ha'. apply list_lookup_insert_ne. intros <-.
              apply Ha'. rewrite refs_lines_cons. apply elem_of_app. by left.
           ++ intros a' Ha'. apply list_lookup_insert_ne. by intros <-.
           ++ intros st' Hst'. simpl. f_equal.
              rewrite <- (view_dict_write st d a) by done.
              apply map_fmap_ext. intros k v Hk. apply view_value_agree.
              intros a' ->. apply Hst', Hdisj.
              by apply (elem_of_refs_dict d k).
        -- (* removed and inserted in front *)
           rewrite (read_Some _ a (remove_first s l))
             by (by apply list_lookup_insert_eq).
           simpl. rewrite list_insert_insert_eq. split; [|split].
           ++ do 3 f_equal.
              ** f_equal. by rewrite view_dict_write.
              ** symmetry. apply (view_lines_agree st _ ls).
                 intros a' Ha'. apply list_lookup_insert_ne. by intros <-.
           ++ by rewrite length_insert.
           ++ intros a' Ha'. apply list_lookup_insert_ne. intros <-.
              apply Ha'. rewrite refs_lines_cons. apply elem_of_app. by left.
      * destruct added; simpl.
        -- apply (Hcont st
                    (SortableStackedInlineBase.LDict (view_value st <$> d)));
             try by intros.
           intros st' Hst'. apply (view_line_agree st st' (LDict d)).
           intros a' Ha'. by apply Hkeep.
        -- rewrite Hread. simpl. split; [|split].
           ++ do 3 f_equal.
              ** f_equal. by rewrite view_dict_write.
              ** symmetry. apply (view_lines_agree st _ ls).
                 intros a' Ha'. apply list_lookup_insert_ne. by intros <-.
           ++ by rewrite length_insert.
           ++ intros a' Ha'. apply list_lookup_insert_ne. intros <-.
              apply Ha'. rewrite refs_lines_cons. apply elem_of_app. by left.
    + done.
Qed.

Lemma refs_cons fs (fss : list fieldset) :
  refs (fs :: fss) = refs_lines fs ++ refs fss.
Proof. reflexivity. Qed.

Lemma view_agree (st st' : store) (fss : list fieldset) :
  (∀ a, a ∈ refs fss → st' !! a = st !! a) → view st' fss = view st fss.
Proof.
  induction fss as [|fs fss IH]; [done|]. intros H.
  rewrite refs_cons in H. unfold view in *. rewrite !fmap_cons. f_equal.
  - apply view_lines_agree. intros a Ha. apply H, elem_of_app. by left.
  - apply IH. intros a Ha. apply H, elem_of_app. by right.
Qed.

Lemma scan_fieldsets_agree s (fss : list fieldset) : ∀ added (st : store),
  NoDup (refs fss) →
  Forall (λ a, (a < length st)%nat) (refs fss) →
  match scan_fieldsets s added fss st with
  | Ok st' =>
      SortableStackedInlineBase.scan_fieldsets s added (view st fss)
      = Ok (view st' fss)
      ∧ length st' = length st
      ∧ ∀ a, a ∉ refs fss → st' !! a = st !! a
  | Raise e =>
      SortableStackedInlineBase.scan_fieldsets s added (view st fss) = Raise e
  end.
Proof.
  induction fss as [|fs fss IH]; intros added st Hnd Hrange.
  { simpl. done. }
  rewrite refs_cons in Hnd, Hrange.
  apply NoDup_app in Hnd as (Hnd_fs & Hdisj & Hnd_fss).
  apply Forall_app in Hrange as [Hrange_fs Hrange_fss].
  pose proof (scan_lines_agree s added fs st Hnd_fs Hrange_fs) as Hfs.
  unfold view. rewrite fmap_cons. fold (view st fss).
  cbn [scan_fieldsets SortableStackedInlineBase.scan_fieldsets].
  destruct (scan_lines s added fs st) as [[added' st1]|e]; simpl.
  - destruct Hfs as (E & Hlen & Hframe). rewrite E. simpl.
    assert (view st1 fss = view st fss) as Hview.
    { apply view_agree. intros a Ha. apply Hframe.
      intros Hfs. by apply (Hdisj a). }
    assert (Forall (λ a, (a < length st1)%nat) (refs fss)) as Hrange1
      by (by rewrite Hlen).
    specialize (IH added' st1 Hnd_fss Hrange1). rewrite Hview in IH.
    destruct (scan_fieldsets s added' fss st1) as [st'|e].
    + destruct IH as (E' & Hlen' & Hframe'). rewrite E'. simpl.
      split; [|split].
      * do 2 f_equal. symmetry. apply (view_lines_agree st1 st' fs).
        intros a Ha. apply Hframe'. by apply Hdisj.
      * congruence.
      * intros a Ha. rewrite refs_cons in Ha.
        apply not_elem_of_app in Ha as [Ha1 Ha2].
        by rewrite Hframe', Hframe.
    + by rewrite IH.
  - by rewrite Hfs.
Qed.

(** On field sets that refer to no list twice, [get_fieldsets] on list
    objects and [SortableStackedInlineBase.get_fieldsets] on list values do
    the same: they raise the same exception, or the field sets returned,
    read through the store as it is afterwards, are the ones the loop on
    values returns. *)
Theorem get_fieldsets_on_separate_lists
    (self : SortableStackedInlineBase.t) (fieldsets : list fieldset)
    (st : store) :
  separate st fieldsets →
  SortableStackedInlineBase.get_fieldsets self (view st fieldsets)
  = get_fieldsets self fieldsets st ≫= λ '(returned, st'), mret (view st' returned).
Proof.
  intros [Hnd Hrange].
  pose proof (scan_fieldsets_agree (SortableStackedInlineBase.sortable self)
                fieldsets false st Hnd Hrange) as H.
  unfold get_fieldsets, SortableStackedInlineBase.get_fieldsets.
  destruct (scan_fieldsets _ false fieldsets st) as [st'|e]; simpl.
  - by destruct H as [-> _].
  - done.
Qed.

End objects_agree.

(** * Further properties of the module *)

(** ** [__init__]: what it keeps and what it forces *)

Section init_more.

Import SortableTabularInlineBase SortableModelAdmin.

Lemma falsy_items v : truthy v = false → items v = [].
Proof.
  intros Ht. destruct (items v) eqn:E; [done|].
  assert (truthy v = true); [|congruence]. apply truthy_items. by rewrite E.
Qed.

Lemma append_if_set_and_missing_items s v :
  ∃ v', append_if_set_and_missing s v = Ok v'
        ∧ items v' = items v
            ++ (if truthy v && negb (bool_decide (s ∈ items v)) then [s] else [])
        ∧ (truthy v && negb (bool_decide (s ∈ items v)) = false → v' = v).
Proof.
  destruct (truthy v) eqn:Ht; simpl.
  - case_bool_decide as Hin; simpl.
    + exists v. rewrite app_nil_r.
      split; [by apply append_if_set_and_missing_present | done].
    + eexists. split; [by apply append_if_set_and_missing_absent | done].
  - exists v. rewrite app_nil_r.
    split; [by apply append_if_set_and_missing_falsy | done].
Qed.

Lemma append_if_missing_items s v :
  ∃ v', append_if_missing s v = Ok v'
        ∧ items v' = items v ++ (if bool_decide (s ∈ items v) then [] else [s])
        ∧ (s ∈ items v → v' = v).
Proof.
  case_bool_decide as Hin.
  - exists v. rewrite app_nil_r.
    split; [by apply append_if_missing_present | done].
  - eexists. split; [by apply append_if_missing_absent | done].
Qed.

Lemma append_if_set_and_missing_twice s v v' :
  append_if_set_and_missing s v = Ok v' → append_if_set_and_missing s v' = Ok v'.
Proof.
  intros E. destruct (truthy v) eqn:Ht.
  - destruct (decide (s ∈ items v)) as [Hin|Hnin].
    + rewrite append_if_set_and_missing_present in E by done.
      injection E as <-. by apply append_if_set_and_missing_present.
    + rewrite append_if_set_and_missing_absent in E by done.
      injection E as <-. apply append_if_set_and_missing_present.
      simpl. apply elem_of_app. right. by apply list_elem_of_singleton.
  - rewrite append_if_set_and_missing_falsy in E by done.
    injection E as <-. by apply append_if_set_and_missing_falsy.
Qed.

Lemma append_if_missing_twice s v v' :
  append_if_missing s v = Ok v' → append_if_missing s v' = Ok v'.
Proof.
  intros E. destruct (append_if_missing_elem s v) as (v'' & E' & Hin).
  rewrite E in E'. injection E' as <-. by apply append_if_missing_present.
Qed.

Lemma fields_step_twice s v v' :
  fields_step s v = Ok v' → fields_step s v' = Ok v'.
Proof.
  destruct (truthy v) eqn:Ht.
  - rewrite fields_step_truthy by done. intros E.
    assert (truthy v' = true) as Ht'.
    { destruct (append_if_set_and_missing_items s v) as (v'' & E' & Hi & _).
      rewrite E in E'. injection E' as <-.
      apply truthy_items. rewrite Hi. apply truthy_items in Ht.
      destruct (items v); [done|]. done. }
    rewrite fields_step_truthy by done.
    by apply (append_if_set_and_missing_twice s v).
  - rewrite fields_step_falsy by done. by intros [= <-].
Qed.

End init_more.

(** X1: each of the three [__init__] methods returns for every value of the
    attributes it reads ([None], empty, tuple or list), sets [ordering] to the
    one-element tuple of the sortable field, and leaves [sortable] and
    [list_per_page] as they were. *)
Theorem init_returns_and_forces_ordering
    (ti : SortableTabularInlineBase.t) (si : SortableStackedInlineBase.t)
    (ma : SortableModelAdmin.t) :
  ∃ ti' si' ma',
    SortableTabularInlineBase.__init__ ti = Ok ti' ∧
    SortableStackedInlineBase.__init__ si = Ok si' ∧
    SortableModelAdmin.__init__ ma = Ok ma' ∧
    SortableTabularInlineBase.ordering ti'
      = PyTuple [SortableTabularInlineBase.sortable ti] ∧
    SortableStackedInlineBase.ordering si'
      = PyTuple [SortableStackedInlineBase.sortable si] ∧
    SortableModelAdmin.ordering ma' = PyTuple [SortableModelAdmin.sortable ma] ∧
    SortableTabularInlineBase.sortable ti' = SortableTabularInlineBase.sortable ti ∧
    SortableStackedInlineBase.sortable si' = SortableStackedInlineBase.sortable si ∧
    SortableModelAdmin.sortable ma' = SortableModelAdmin.sortable ma ∧
    SortableModelAdmin.list_per_page ma' = SortableModelAdmin.list_per_page ma.
Proof.
  destruct (append_if_set_and_missing_items
              (SortableTabularInlineBase.sortable ti)
              (py_or (SortableTabularInlineBase.fields ti) (PyList [])))
    as (f' & Ef & _).
  destruct (append_if_set_and_missing_items (SortableModelAdmin.sortable ma)
              (SortableModelAdmin.list_display ma)) as (d' & Ed & _).
  destruct (append_if_missing_items (SortableModelAdmin.sortable ma)
              (SortableModelAdmin.list_editable ma)) as (e' & Ee & _).
  destruct (append_if_missing_items (SortableModelAdmin.sortable ma)
              (SortableModelAdmin.exclude ma)) as (x' & Ex & _).
  eexists _, _, _. split; [|split; [|split]].
  - unfold SortableTabularInlineBase.__init__,
      SortableTabularInlineBase.fields_step. rewrite Ef. reflexivity.
  - reflexivity.
  - unfold SortableModelAdmin.__init__, SortableModelAdmin.list_display_step,
      SortableModelAdmin.list_editable_step, SortableModelAdmin.exclude_step.
    rewrite Ed. simpl. rewrite Ee. simpl. rewrite Ex. reflexivity.
  - simpl. done.
Qed.

(** X2: [__init__] only ever appends. The entries configured in [fields],
    [list_display], [list_editable] and [exclude] are all kept, in their
    order, followed by the sortable field when it was missing (for [fields]
    and [list_display]: missing from a non-empty value), and by nothing
    else. *)
Theorem init_only_appends
    (ti : SortableTabularInlineBase.t) (ma : SortableModelAdmin.t) :
  let missing s v := negb (bool_decide (s ∈ items v)) in
  let tail (b : bool) s := if b then [s] else [] in
  ∃ ti' ma',
    SortableTabularInlineBase.__init__ ti = Ok ti' ∧
    SortableModelAdmin.__init__ ma = Ok ma' ∧
    items (SortableTabularInlineBase.fields ti')
    = items (SortableTabularInlineBase.fields ti)
      ++ tail (truthy (SortableTabularInlineBase.fields ti)
               && missing (SortableTabularInlineBase.sortable ti)
                          (SortableTabularInlineBase.fields ti))
              (SortableTabularInlineBase.sortable ti) ∧
    items (SortableModelAdmin.list_display ma')
    = items (SortableModelAdmin.list_display ma)
      ++ tail (truthy (SortableModelAdmin.list_display ma)
               && missing (SortableModelAdmin.sortable ma)
                          (SortableModelAdmin.list_display ma))
              (SortableModelAdmin.sortable ma) ∧
    items (SortableModelAdmin.list_editable ma')
    = items (SortableModelAdmin.list_editable ma)
      ++ tail (missing (SortableModelAdmin.sortable ma)
                       (SortableModelAdmin.list_editable ma))
              (SortableModelAdmin.sortable ma) ∧
    items (SortableModelAdmin.exclude ma')
    = items (SortableModelAdmin.exclude ma)
      ++ tail (missing (SortableModelAdmin.sortable ma)
                       (SortableModelAdmin.exclude ma))
              (SortableModelAdmin.sortable ma).
Proof.
  intros missing tail.
  set (s := SortableTabularInlineBase.sortable ti).
  set (f := SortableTabularInlineBase.fields ti).
  assert (∃ f', SortableTabularInlineBase.fields_step s f = Ok f'
            ∧ items f' = items f ++ tail (truthy f && missing s f) s)
    as (f' & Ef & Hf).
  { destruct (truthy f) eqn:Ht.
    - rewrite fields_step_truthy by done.
      destruct (append_if_set_and_missing_items s f) as (f' & E & Hi & _).
      exists f'. split; [done|]. rewrite Hi, Ht. done.
    - rewrite fields_step_falsy by done. exists (PyList []).
      split; [done|]. simpl. by rewrite falsy_items. }
  destruct (append_if_set_and_missing_items (SortableModelAdmin.sortable ma)
              (SortableModelAdmin.list_display ma)) as (d' & Ed & Hd & _).
  destruct (append_if_missing_items (SortableModelAdmin.sortable ma)
              (SortableModelAdmin.list_editable ma)) as (e' & Ee & He & _).
  destruct (append_if_missing_items (SortableModelAdmin.sortable ma)
              (SortableModelAdmin.exclude ma)) as (x' & Ex & Hx & _).
  eexists _, _. split; [|split].
  - unfold SortableTabularInlineBase.__init__. fold s f. rewrite Ef. reflexivity.
  - unfold SortableModelAdmin.__init__, SortableModelAdmin.list_display_step,
      SortableModelAdmin.list_editable_step, SortableModelAdmin.exclude_step.
    rewrite Ed. simpl. rewrite Ee. simpl. rewrite Ex. reflexivity.
  - simpl. rewrite Hf, Hd, He, Hx. unfold missing, tail.
    repeat split; try done; by repeat case_bool_decide.
Qed.

(** X3: running [__init__] again on its own result changes nothing, for the
    tabular inline and for the model admin. *)
Theorem init_twice_is_init_once
    (ti ti' : SortableTabularInlineBase.t) (ma ma' : SortableModelAdmin.t) :
  SortableTabularInlineBase.__init__ ti = Ok ti' →
  SortableModelAdmin.__init__ ma = Ok ma' →
  SortableTabularInlineBase.__init__ ti' = Ok ti' ∧
  SortableModelAdmin.__init__ ma' = Ok ma'.
Proof.
  intros Eti Ema. split.
  - destruct ti as [s o f]. unfold SortableTabularInlineBase.__init__ in *.
    simpl in *.
    destruct (SortableTabularInlineBase.fields_step s f) as [f'|] eqn:E;
      simpl in Eti; [|done].
    injection Eti as <-. simpl. by rewrite (fields_step_twice s f f').
  - destruct ma as [s o d e x n].
    unfold SortableModelAdmin.__init__, SortableModelAdmin.list_display_step,
      SortableModelAdmin.list_editable_step, SortableModelAdmin.exclude_step
      in *. simpl in *.
    destruct (SortableTabularInlineBase.append_if_set_and_missing s d)
      as [d'|] eqn:Ed; simpl in Ema; [|done].
    destruct (SortableModelAdmin.append_if_missing s e) as [e'|] eqn:Ee;
      simpl in Ema; [|done].
    destruct (SortableModelAdmin.append_if_missing s x) as [x'|] eqn:Ex;
      simpl in Ema; [|done].
    injection Ema as <-. simpl.
    rewrite (append_if_set_and_missing_twice s d d') by done. simpl.
    rewrite (append_if_missing_twice s e e') by done. simpl.
    by rewrite (append_if_missing_twice s x x').
Qed.

Lemma init_twice_is_init_once_witness :
  let ti' := SortableTabularInlineBase.Build "order" (PyTuple ["order"])
               (PyList ["name"; "order"]) in
  let ma' := SortableModelAdmin.Build "order" (PyTuple ["order"])
               (PyList ["name"; "order"]) (PyList ["order"]) (PyList ["order"])
               500 in
  SortableTabularInlineBase.__init__ ti' = Ok ti' ∧
  SortableModelAdmin.__init__ ma' = Ok ma'.
Proof.
  intros ti' ma'.
  apply (init_twice_is_init_once
           (SortableTabularInlineBase.Build "order" PyNone (PyTuple ["name"]))
           ti'
           (SortableModelAdmin.Build "order" PyNone (PyTuple ["name"]) PyNone
              PyNone 500)
           ma'); reflexivity.
Defined.

(** ** [get_fieldsets]: what it leaves alone, what it raises, and repeated
    calls *)

Section fieldsets_more.

Import SortableStackedInlineBase FieldsetFrame.








End fieldsets_more.



Section fieldsets_again.

Import SortableStackedInlineBase FieldsetFrame.

Lemma scan_lines_list_group_shape s added fs :
  list_group s fs = true →
  ∃ name d l,
    fs = [name; LDict d] ∧ is_name name = true ∧
    d !! "fields" = Some (PyList l) ∧ (s ∉ remove_first s l) ∧
    scan_lines s added fs
    = Ok ([name;
           LDict (<["fields" := PyList ((if added then [] else [s])
                                        ++ remove_first s l)]> d)], true).
Proof.
  intros H. destruct fs as [|name [|[| |d] [|]]]; simpl in H; try done.
  apply andb_true_iff in H as [Hname Hd].
  destruct (d !! "fields") as [[| |l]|] eqn:Ef; try done.
  apply bool_decide_eq_true in Hd. unfold occurrences in Hd. simpl in Hd.
  assert (d ≠ ∅) as Hne by (intros ->; by rewrite lookup_empty in Ef).
  exists name, d, l. split; [done|]. split; [done|]. split; [done|].
  split; [by apply remove_first_once|].
  rewrite scan_lines_name by done. simpl.
  rewrite decide_False by done. rewrite Ef. simpl.
  case_bool_decide as Hin; simpl; destruct added; simpl; try done.
  - rewrite remove_first_absent by done. by rewrite insert_id.
  - by rewrite remove_first_absent.
Qed.

(** A group in which the sortable field is already where the loop puts it
    comes back as it is. *)
Lemma scan_lines_settled (s : string) (added : bool) name d (rest : list string) :
  is_name name = true →
  d !! "fields" = Some (PyList ((if added then [] else [s]) ++ rest)) →
  s ∉ rest →
  scan_lines s added [name; LDict d] = Ok ([name; LDict d], true).
Proof.
  intros Hname Ef Hnin.
  assert (d ≠ ∅) as Hne by (intros ->; by rewrite lookup_empty in Ef).
  rewrite scan_lines_name by done. simpl.
  rewrite decide_False by done. rewrite Ef. simpl.
  destruct added; simpl in *.
  - by rewrite bool_decide_eq_false_2.
  - rewrite bool_decide_eq_true_2 by (apply elem_of_cons; by left). simpl.
    rewrite decide_True by done. by rewrite insert_id.
Qed.

Lemma scan_lines_list_group_twice s added fs :
  list_group s fs = true →
  ∃ fs', scan_lines s added fs = Ok (fs', true)
         ∧ scan_lines s added fs' = Ok (fs', true).
Proof.
  intros H.
  destruct (scan_lines_list_group_shape s added fs H)
    as (name & d & l & -> & Hname & Ef & Hnin & E).
  eexists. split; [exact E|].
  apply (scan_lines_settled s added name _ (remove_first s l)); [done| |done].
  by rewrite lookup_insert_eq.
Qed.

Lemma scan_fieldsets_placed_twice s fss :
  forallb (list_group s) fss = true →
  ∃ r, scan_fieldsets s true fss = Ok r ∧ scan_fieldsets s true r = Ok r.
Proof.
  induction fss as [|fs fss IH]; simpl.
  - intros _. by exists [].
  - intros [Hfs Hfss]%andb_true_iff.
    destruct (scan_lines_list_group_twice s true fs Hfs) as (fs' & E & E').
    destruct (IH Hfss) as (r & Er & Er').
    exists (fs' :: r). rewrite E. simpl. rewrite Er. simpl.
    split; [done|]. rewrite E'. simpl. by rewrite Er'.
Qed.

(** The first group decides whether the method can work at all. *)
Lemma scan_lines_first_tuple s name d l rest :
  is_name name = true → d ≠ ∅ → d !! "fields" = Some (PyTuple l) →
  scan_lines s false (name :: LDict d :: rest) = Raise AttributeError.
Proof.
  intros Hname Hne Ef. rewrite scan_lines_name by done. simpl.
  rewrite decide_False by done. rewrite Ef. simpl.
  by case_bool_decide.
Qed.

Lemma scan_lines_first_unset s name d rest :
  is_name name = true → d ≠ ∅ →
  default PyNone (d !! "fields") = PyNone →
  scan_lines s false (name :: LDict d :: rest) = Raise TypeError.
Proof.
  intros Hname Hne Ef. rewrite scan_lines_name by done. simpl.
  rewrite decide_False by done. by rewrite Ef.
Qed.

End fieldsets_again.

(** X5: on field sets whose groups all satisfy [list_group], a second call of
    [get_fieldsets] on what the first call returned (the lists are changed in
    place, so this is what every later call sees) returns the same field
    sets: the sortable field is not inserted a second time. *)
Theorem get_fieldsets_repeated_call (self : SortableStackedInlineBase.t)
    (fieldsets : list SortableStackedInlineBase.fieldset) :
  fieldsets ≠ [] →
  forallb (SortableStackedInlineBase.list_group
             (SortableStackedInlineBase.sortable self)) fieldsets = true →
  ∃ r, SortableStackedInlineBase.get_fieldsets self fieldsets = Ok r
       ∧ SortableStackedInlineBase.get_fieldsets self r = Ok r.
Proof.
  intros Hne Hall. destruct fieldsets as [|fs fss]; [done|].
  simpl in Hall. apply andb_true_iff in Hall as [Hfs Hfss].
  destruct (scan_lines_list_group_twice
              (SortableStackedInlineBase.sortable self) false fs Hfs)
    as (fs' & E & E').
  destruct (scan_fieldsets_placed_twice
              (SortableStackedInlineBase.sortable self) fss Hfss)
    as (r & Er & Er').
  exists (fs' :: r). unfold SortableStackedInlineBase.get_fieldsets. simpl.
  rewrite E. simpl. rewrite Er. simpl. split; [done|].
  rewrite E'. simpl. by rewrite Er'.
Qed.

Lemma get_fieldsets_repeated_call_witness :
  ∃ r,
    SortableStackedInlineBase.get_fieldsets
      (SortableStackedInlineBase.Build "order" PyNone)
      [[SortableStackedInlineBase.LNone;
        SortableStackedInlineBase.LDict {[ "fields" := PyList ["name"; "order"] ]}];
       [SortableStackedInlineBase.LName "Extra";
        SortableStackedInlineBase.LDict {[ "fields" := PyList ["note"] ]}]]
    = Ok r
    ∧ SortableStackedInlineBase.get_fieldsets
        (SortableStackedInlineBase.Build "order" PyNone) r = Ok r.
Proof.
  apply (get_fieldsets_repeated_call
           (SortableStackedInlineBase.Build "order" PyNone)); [done|].
  by vm_compute.
Defined.

(** X6: when the first group is a pair of a name and a non-empty options
    dict, [get_fieldsets] raises [AttributeError] if its ["fields"] is a
    tuple, whatever the tuple holds, and [TypeError] if ["fields"] is missing
    or [None]. *)
Theorem get_fieldsets_first_group_errors (self : SortableStackedInlineBase.t)
    (fieldsets : list SortableStackedInlineBase.fieldset)
    (d : gmap string pyseq) :
  FieldsetFrame.first_options fieldsets = Some d →
  (∀ l, d !! "fields" = Some (PyTuple l) →
        SortableStackedInlineBase.get_fieldsets self fieldsets
        = Raise AttributeError) ∧
  (default PyNone (d !! "fields") = PyNone →
   SortableStackedInlineBase.get_fieldsets self fieldsets = Raise TypeError).
Proof.
  intros H. unfold FieldsetFrame.first_options in H.
  destruct fieldsets as [|[|name [|[| |d'] tl]] fss]; try done.
  destruct (SortableStackedInlineBase.is_name name) eqn:Hname; [|done].
  case_bool_decide as Hne; [done|]. simpl in H. injection H as ->.
  unfold SortableStackedInlineBase.get_fieldsets. split.
  - intros l Ef. cbn [SortableStackedInlineBase.scan_fieldsets].
    by rewrite (scan_lines_first_tuple _ name d l tl).
  - intros Ef. cbn [SortableStackedInlineBase.scan_fieldsets].
    by rewrite (scan_lines_first_unset _ name d tl).
Qed.

Lemma get_fieldsets_first_group_errors_witness :
  SortableStackedInlineBase.get_fieldsets
    (SortableStackedInlineBase.Build "order" PyNone)
    [[SortableStackedInlineBase.LName "Main";
      SortableStackedInlineBase.LDict {[ "fields" := PyTuple ["name"] ]}]]
  = Raise AttributeError.
Proof.
  refine (proj1 (get_fieldsets_first_group_errors
                   (SortableStackedInlineBase.Build "order" PyNone)
                   [[SortableStackedInlineBase.LName "Main";
                     SortableStackedInlineBase.LDict
                       {[ "fields" := PyTuple ["name"] ]}]]
                   {[ "fields" := PyTuple ["name"] ]} _) ["name"] _);
    reflexivity.
Defined.

(** ** [save_model]: where a new row lands and what else it touches *)

Section sequence_more.

Import Model.

Lemma getattr_setattr_ne o name name' v :
  name' ≠ name → getattr (setattr o name v) name' = getattr o name'.
Proof.
  intros Hne. unfold getattr, setattr.
  destruct (decide (name = "pk")) as [->|Hpk]; simpl.
  - by rewrite !decide_False by done.
  - destruct (decide (name' = "pk")); [done|]. by rewrite lookup_insert_ne.
Qed.

Lemma elem_of_column field row rows m :
  row ∈ rows → getattr row field = Some (VInt m) → Some m ∈ column field rows.
Proof.
  intros Hin Hget. unfold column. apply list_elem_of_fmap.
  exists row. by rewrite Hget.
Qed.

Lemma sql_max_snoc col v :
  (∀ m, Some m ∈ col → (m ≤ v)%Z) → sql_max (col ++ [Some v]) = Some v.
Proof.
  induction col as [|c col IH]; simpl; [done|].
  intros Hle. rewrite IH.
  - destruct c as [n|]; [|done]. f_equal.
    assert (n ≤ v)%Z by (apply Hle, elem_of_cons; by left). lia.
  - intros m Hm. apply Hle, elem_of_cons. by right.
Qed.

Lemma assign_order_new_value self obj rows :
  val_truthy (pk obj) = false →
  ∃ v, SortableModelAdmin.assign_order self obj rows
       = Ok (setattr obj (SortableModelAdmin.sortable self) (VInt v))
       ∧ ∀ m, Some m ∈ column (SortableModelAdmin.sortable self) rows → (m < v)%Z.
Proof.
  intros Hpk. rewrite assign_order_new by done.
  destruct (sql_max _) as [N|] eqn:E.
  - exists (N + 1)%Z. split; [done|]. intros m Hm.
    apply sql_max_Some in E as [_ Hle]. specialize (Hle m Hm). lia.
  - exists 1%Z. split; [done|]. intros m Hm.
    by specialize (proj1 (sql_max_None _) E _ Hm).
Qed.

End sequence_more.

(** X7: an object whose primary key is false in Python's sense ([None], 0 or
    the empty string) is handed to the framework's save with a sequence
    number greater than the number of every existing row, so that it comes
    last in the change list. *)
Theorem save_model_new_row_sorts_last {Request Form : Type}
    (super_save_model : Request → Model.Obj → Form → bool → list Model.Obj →
                        result (Model.Obj * list Model.Obj))
    (self : SortableModelAdmin.t) (request : Request) (obj : Model.Obj)
    (form : Form) (change : bool) (rows : list Model.Obj) :
  val_truthy (Model.pk obj) = false →
  let s := SortableModelAdmin.sortable self in
  ∃ v,
    SortableModelAdmin.save_model super_save_model self request obj form change rows
    = super_save_model request (Model.setattr obj s (VInt v)) form change rows
    ∧ ∀ row m, row ∈ rows → Model.getattr row s = Some (VInt m) → (m < v)%Z.
Proof.
  intros Hpk s.
  destruct (assign_order_new_value self obj rows Hpk) as (v & E & Hlt).
  exists v. split.
  - unfold SortableModelAdmin.save_model. by rewrite E.
  - intros row m Hin Hget. apply Hlt. by apply (elem_of_column _ row).
Qed.

Lemma save_model_new_row_sorts_last_witness :
  let rows := [Model.Build_Obj (VInt 1) {[ "order" := VInt (-4) ]};
               Model.Build_Obj (VInt 2) {[ "order" := VInt (-9) ]}] in
  let obj := Model.Build_Obj (VInt 0) ∅ in
  ∃ v,
    SortableModelAdmin.save_model
      (λ (_ : unit) o (_ : unit) (_ : bool) rs, Ok (o, rs ++ [o]))
      (SortableModelAdmin.Build "order" PyNone PyNone PyNone PyNone 500)
      () obj () true rows
    = Ok (Model.setattr obj "order" (VInt v),
          rows ++ [Model.setattr obj "order" (VInt v)])
    ∧ (-4 < v)%Z.
Proof.
  intros rows obj.
  destruct (save_model_new_row_sorts_last
              (λ (_ : unit) o (_ : unit) (_ : bool) rs, Ok (o, rs ++ [o]))
              (SortableModelAdmin.Build "order" PyNone PyNone PyNone PyNone 500)
              () obj () true rows eq_refl) as (v & E & Hlt).
  exists v. split; [exact E|].
  apply (Hlt (Model.Build_Obj (VInt 1) {[ "order" := VInt (-4) ]})).
  - apply elem_of_cons. by left.
  - reflexivity.
Defined.

(** X8: whatever the object, [save_model] hands to the framework's save an
    object that differs from the one it was given at most in the sortable
    attribute. *)
Theorem save_model_touches_only_sortable {Request Form : Type}
    (super_save_model : Request → Model.Obj → Form → bool → list Model.Obj →
                        result (Model.Obj * list Model.Obj))
    (self : SortableModelAdmin.t) (request : Request) (obj : Model.Obj)
    (form : Form) (change : bool) (rows : list Model.Obj) :
  ∃ obj',
    SortableModelAdmin.save_model super_save_model self request obj form change rows
    = super_save_model request obj' form change rows
    ∧ ∀ name, name ≠ SortableModelAdmin.sortable self →
              Model.getattr obj' name = Model.getattr obj name.
Proof.
  destruct (val_truthy (Model.pk obj)) eqn:Hpk.
  - exists obj. split; [|done].
    unfold SortableModelAdmin.save_model.
    by rewrite assign_order_existing.
  - destruct (assign_order_new_value self obj rows Hpk) as (v & E & _).
    eexists. split.
    + unfold SortableModelAdmin.save_model. by rewrite E.
    + intros name Hne. by apply getattr_setattr_ne.
Qed.

(** X9: two objects created one after the other receive consecutive
    numbers: once the first has been stored as a further row that kept its
    number, the second gets that number plus one. *)
Theorem save_model_consecutive_numbers
    (self : SortableModelAdmin.t) (first second first' stored : Model.Obj)
    (rows : list Model.Obj) :
  val_truthy (Model.pk first) = false →
  val_truthy (Model.pk second) = false →
  SortableModelAdmin.assign_order self first rows = Ok first' →
  Model.getattr stored (SortableModelAdmin.sortable self)
  = Model.getattr first' (SortableModelAdmin.sortable self) →
  ∃ v,
    Model.getattr first' (SortableModelAdmin.sortable self) = Some (VInt v) ∧
    SortableModelAdmin.assign_order self second (rows ++ [stored])
    = Ok (Model.setattr second (SortableModelAdmin.sortable self) (VInt (v + 1))).
Proof.
  intros Hp1 Hp2 E1 Hst.
  destruct (assign_order_new_value self first rows Hp1) as (v & E & Hlt).
  rewrite E in E1. injection E1 as <-.
  rewrite getattr_setattr in *.
  exists v. split; [done|].
  rewrite assign_order_new by done.
  unfold Model.column. rewrite fmap_app. simpl. rewrite Hst.
  rewrite sql_max_snoc; [done|].
  intros m Hm. specialize (Hlt m Hm). lia.
Qed.

Lemma save_model_consecutive_numbers_witness :
  let self := SortableModelAdmin.Build "order" PyNone PyNone PyNone PyNone 500 in
  let rows := [Model.Build_Obj (VInt 1) {[ "order" := VInt 6 ]}] in
  let first := Model.Build_Obj VNone {[ "title" := VStr "a" ]} in
  let second := Model.Build_Obj VNone {[ "title" := VStr "b" ]} in
  let stored := Model.Build_Obj (VInt 2)
                  {[ "title" := VStr "a"; "order" := VInt 7 ]} in
  SortableModelAdmin.assign_order self second (rows ++ [stored])
  = Ok (Model.setattr second "order" (VInt 8)).
Proof.
  intros self rows first second stored.
  destruct (save_model_consecutive_numbers self first second
              (Model.setattr first "order" (VInt 7)) stored rows
              eq_refl eq_refl eq_refl eq_refl) as (v & Hv & E).
  vm_compute in Hv. injection Hv as <-. exact E.
Defined.

(** ** [merge_form_meta] and [get_changelist_form] *)

Section merge.

Import ChangelistForm.

Lemma shared_order_lookup c a :
  shared_order c a →
  ∃ d sd, metas c !! SortableListForm_Meta = Some (Some d)
          ∧ dicts c !! d = Some sd ∧ sd !! "order" = Some a.
Proof.
  unfold shared_order, resolved_widgets.
  destruct (metas c !! SortableListForm_Meta) as [[d|]|]; try done.
  destruct (dicts c !! d) as [sd|] eqn:E; simpl; [|done].
  intros H. by exists d, sd.
Qed.

Lemma shared_order_read c a :
  shared_order c a →
  (d ← attr_widgets c SortableListForm_Meta;
   x ← dict_at c d;
   py_getitem x "order") = Ok a.
Proof.
  intros (d & sd & Hm & Hd & Ho)%shared_order_lookup.
  unfold attr_widgets, getattr_widgets, dict_at, py_getitem.
  rewrite Hm. simpl. rewrite Hd. simpl. by rewrite Ho.
Qed.

Lemma getattr_widgets_Some c m v :
  metas c !! m = Some v → getattr_widgets c m = Ok v.
Proof. unfold getattr_widgets. by intros ->. Qed.

Lemma dict_at_Some c d x : dicts c !! d = Some x → dict_at c d = Ok x.
Proof. unfold dict_at. by intros ->. Qed.

(** On a form whose [Meta.widgets] already maps the sortable field to the
    shared widget nothing is changed. *)
Lemma merge_form_meta_settled self c m d td a :
  metas c !! m = Some (Some d) → dicts c !! d = Some td →
  td !! SortableModelAdmin.sortable self = Some a → shared_order c a →
  merge_form_meta self (Build_Form (Some m)) c = Ok (Build_Form (Some m), c).
Proof.
  intros Hm Hd Hs Hshared.
  destruct (shared_order_lookup c a Hshared) as (d0 & sd & Hm0 & Hd0 & Ho).
  unfold merge_form_meta. simpl.
  rewrite (getattr_widgets_Some _ _ _ Hm). simpl.
  rewrite (dict_at_Some _ _ _ Hd). simpl.
  rewrite bool_decide_eq_false_2
    by (intros ->; by rewrite lookup_empty in Hs).
  simpl. unfold attr_widgets, getattr_widgets, dict_at, py_getitem.
  rewrite Hm0. simpl. rewrite Hd0. simpl. rewrite Ho. simpl.
  rewrite Hm. simpl. rewrite Hd. simpl.
  rewrite insert_id by done. rewrite list_insert_id by done.
  by destruct c.
Qed.

Lemma merge_form_meta_spec self form c a :
  valid c → shared_order c a → form_valid c form →
  let m := default SortableListForm_Meta (Meta form) in
  let s := SortableModelAdmin.sortable self in
  ∃ c' d,
    merge_form_meta self form c = Ok (Build_Form (Some m), c') ∧
    metas c' !! m = Some (Some d) ∧
    dicts c' !! d = Some (<[s := a]> (resolved_widgets c m)) ∧
    widgets c' = widgets c ∧
    valid c' ∧ shared_order c' a ∧
    (∀ d', (d' < length (dicts c))%nat → d' ≠ d → dicts c' !! d' = dicts c !! d').
Proof.
  intros Hvalid Hshared Hform m s.
  destruct (shared_order_lookup c a Hshared) as (d0 & sd & Hm0 & Hd0 & Ho).
  assert (∃ v, metas c !! m = Some v) as [v Hm].
  { subst m. destruct (Meta form) as [m|] eqn:E; simpl; [|by eauto].
    apply lookup_lt_is_Some. by apply Hform. }
  assert (∀ d, v = Some d → ∃ x, dicts c !! d = Some x) as Hdict.
  { intros d ->. apply lookup_lt_is_Some.
    unfold valid in Hvalid. rewrite Forall_lookup in Hvalid.
    by apply (Hvalid m (Some d)). }
  unfold merge_form_meta. fold m. simpl.
  rewrite (getattr_widgets_Some _ _ _ Hm). simpl.
  destruct v as [d|].
  - destruct (Hdict d eq_refl) as [x Hx].
    rewrite (dict_at_Some _ _ _ Hx). simpl.
    case_bool_decide as Hempty; simpl.
    + (* an empty dict is replaced by a new one *)
      subst x.
      assert (m ≠ SortableListForm_Meta) as Hne.
      { intros E. rewrite E, Hm0 in Hm. injection Hm as ->.
        rewrite Hd0 in Hx. injection Hx as ->.
        by rewrite lookup_empty in Ho. }
      unfold attr_widgets, getattr_widgets, dict_at, py_getitem. simpl.
      rewrite (list_lookup_insert_ne _ m SortableListForm_Meta) by done.
      rewrite Hm0. simpl.
      rewrite (lookup_app_l_Some _ _ _ _ Hd0). simpl. rewrite Ho. simpl.
      rewrite list_lookup_insert_eq by (by eapply lookup_lt_Some).
      simpl. rewrite list_lookup_middle by done. simpl.
      rewrite insert_last.
      eexists _, (length (dicts c)). split; [reflexivity|]. simpl.
      split; [by rewrite list_lookup_insert_eq by (by eapply lookup_lt_Some)|].
      split.
      { rewrite list_lookup_middle by done.
        unfold resolved_widgets. by rewrite Hm, Hx. }
      split; [done|]. split; [|split].
      * unfold valid. simpl. rewrite length_app. simpl.
        apply Forall_insert.
        -- eapply Forall_impl; [exact Hvalid|]. simpl.
           intros w Hw d' ->. specialize (Hw d' eq_refl). lia.
        -- intros d' [= <-]. lia.
      * unfold shared_order, resolved_widgets. simpl.
        rewrite list_lookup_insert_ne by done. rewrite Hm0.
        rewrite lookup_app_l by (by eapply lookup_lt_Some).
        by rewrite Hd0.
      * intros d' Hlt Hne'. by rewrite lookup_app_l.
    + (* the dict found is written to *)
      unfold attr_widgets, getattr_widgets, dict_at, py_getitem.
      rewrite Hm0. simpl. rewrite Hd0. simpl. rewrite Ho. simpl.
      rewrite Hm. simpl. rewrite Hx. simpl.
      assert (d < length (dicts c))%nat as Hlt by (by eapply lookup_lt_Some).
      eexists _, d. split; [reflexivity|]. simpl.
      split; [done|]. split.
      { rewrite list_lookup_insert_eq by done.
        unfold resolved_widgets. by rewrite Hm, Hx. }
      split; [done|]. split; [|split].
      * unfold valid. simpl. by rewrite length_insert.
      * unfold shared_order, resolved_widgets. simpl. rewrite Hm0.
        destruct (decide (d0 = d)) as [->|Hne].
        -- rewrite list_lookup_insert_eq by done. simpl.
           rewrite Hd0 in Hx. injection Hx as <-.
           destruct (decide (SortableModelAdmin.sortable self = "order"))
             as [E|Hs].
           ++ by rewrite E, lookup_insert_eq.
           ++ by rewrite lookup_insert_ne.
        -- rewrite list_lookup_insert_ne by done. by rewrite Hd0.
      * intros d' _ Hne'. by rewrite list_lookup_insert_ne.
  - (* no widgets attribute: a new dict is created *)
    simpl.
    assert (m ≠ SortableListForm_Meta) as Hne.
    { intros E. rewrite E, Hm0 in Hm. done. }
    unfold attr_widgets, getattr_widgets, dict_at, py_getitem. simpl.
    rewrite (list_lookup_insert_ne _ m SortableListForm_Meta) by done.
    rewrite Hm0. simpl.
    rewrite (lookup_app_l_Some _ _ _ _ Hd0). simpl. rewrite Ho. simpl.
    rewrite list_lookup_insert_eq by (by eapply lookup_lt_Some).
    simpl. rewrite list_lookup_middle by done. simpl.
    rewrite insert_last.
    eexists _, (length (dicts c)). split; [reflexivity|]. simpl.
    split; [by rewrite list_lookup_insert_eq by (by eapply lookup_lt_Some)|].
    split.
    { rewrite list_lookup_middle by done.
      unfold resolved_widgets. by rewrite Hm. }
    split; [done|]. split; [|split].
    * unfold valid. simpl. rewrite length_app. simpl.
      apply Forall_insert.
      -- eapply Forall_impl; [exact Hvalid|]. simpl.
         intros w Hw d' ->. specialize (Hw d' eq_refl). lia.
      -- intros d' [= <-]. lia.
    * unfold shared_order, resolved_widgets. simpl.
      rewrite list_lookup_insert_ne by done. rewrite Hm0.
      rewrite lookup_app_l by (by eapply lookup_lt_Some).
      by rewrite Hd0.
    * intros d' Hlt Hne'. by rewrite lookup_app_l.
Qed.

Lemma valid_loaded : valid loaded.
Proof.
  unfold valid, loaded. simpl. constructor; [|constructor].
  intros d [= <-]. lia.
Qed.

Lemma shared_order_loaded : shared_order loaded 0.
Proof. reflexivity. Qed.

End merge.

Section merge_results.

Import ChangelistForm.

Lemma resolved_widgets_at c m d x :
  metas c !! m = Some (Some d) → dicts c !! d = Some x →
  resolved_widgets c m = x.
Proof. intros Hm Hd. unfold resolved_widgets. by rewrite Hm, Hd. Qed.

Lemma form_valid_no_Meta c : form_valid c (Build_Form None).
Proof. by intros m. Qed.

Lemma valid_cons w ws ds ms :
  match w with Some d => (d < length ds)%nat | None => True end →
  valid (Build_Classes ws ds ms) → valid (Build_Classes ws ds (w :: ms)).
Proof.
  intros Hw Hms. unfold valid in *. simpl in *. constructor; [|done].
  intros d ->. done.
Qed.

Lemma valid_nil ws ds : valid (Build_Classes ws ds []).
Proof. constructor. Qed.

End merge_results.

Ltac solve_valid :=
  repeat (apply valid_cons; [simpl; lia || exact I |]);
  apply valid_nil.

(** X10: on a form with or without [Meta], with or without [widgets],
    [merge_form_meta] returns, and afterwards [form.Meta.widgets] is what it
    stood for before (empty when there was none) with the sortable field
    mapped to the shared order widget itself. No widget is created or
    changed, the shared ['order'] entry stays, and no dict other than the
    form's is written to. *)
Theorem merge_form_meta_maps_sortable_to_shared_widget
    (self : SortableModelAdmin.t) (form : ChangelistForm.Form)
    (c : ChangelistForm.Classes) (a : nat) :
  ChangelistForm.valid c → ChangelistForm.shared_order c a →
  ChangelistForm.form_valid c form →
  let m := default ChangelistForm.SortableListForm_Meta
                   (ChangelistForm.Meta form) in
  ∃ c' d,
    ChangelistForm.merge_form_meta self form c
    = Ok (ChangelistForm.Build_Form (Some m), c') ∧
    ChangelistForm.metas c' !! m = Some (Some d) ∧
    ChangelistForm.resolved_widgets c' m
    = <[SortableModelAdmin.sortable self := a]>
        (ChangelistForm.resolved_widgets c m) ∧
    ChangelistForm.widgets c' = ChangelistForm.widgets c ∧
    ChangelistForm.shared_order c' a ∧
    (∀ d', (d' < length (ChangelistForm.dicts c))%nat → d' ≠ d →
           ChangelistForm.dicts c' !! d' = ChangelistForm.dicts c !! d').
Proof.
  intros Hv Hs Hf m.
  destruct (merge_form_meta_spec self form c a Hv Hs Hf)
    as (c' & d & E & Hm & Hd & Hw & _ & Hs' & Hframe).
  exists c', d. split; [exact E|]. split; [exact Hm|].
  split; [by apply (resolved_widgets_at c' _ d)|]. done.
Qed.

Lemma merge_form_meta_maps_sortable_to_shared_widget_witness :
  let c := ChangelistForm.Build_Classes
             [SortableListForm.NumberInput SortableListForm.order_attrs;
              SortableListForm.NumberInput ∅]
             [{[ "order" := 0%nat ]}; {[ "name" := 1%nat ]}]
             [Some 0%nat; Some 1%nat] in
  ∃ c',
    ChangelistForm.merge_form_meta
      (SortableModelAdmin.Build "position" PyNone PyNone PyNone PyNone 500)
      (ChangelistForm.Build_Form (Some 1%nat)) c
    = Ok (ChangelistForm.Build_Form (Some 1%nat), c') ∧
    ChangelistForm.resolved_widgets c' 1
    = <["position" := 0%nat]> {[ "name" := 1%nat ]}.
Proof.
  intros c.
  destruct (merge_form_meta_maps_sortable_to_shared_widget
              (SortableModelAdmin.Build "position" PyNone PyNone PyNone PyNone 500)
              (ChangelistForm.Build_Form (Some 1%nat)) c 0%nat)
    as (c' & d & E & _ & Hr & _).
  - solve_valid.
  - reflexivity.
  - intros m [= <-]. simpl. lia.
  - exists c'. split; [exact E | exact Hr].
Defined.

(** X11: a form without [Meta] is given [SortableListForm.Meta] itself, so
    the write goes to the shared dict: after two admins with the sortable
    fields [sA] and [sB] have merged such forms, both forms have the same
    [Meta], and [SortableListForm.Meta.widgets] holds both names. *)
Theorem merge_form_meta_without_Meta_writes_to_shared_dict
    (selfA selfB : SortableModelAdmin.t) (c : ChangelistForm.Classes) (a : nat) :
  ChangelistForm.valid c → ChangelistForm.shared_order c a →
  let shared := ChangelistForm.SortableListForm_Meta in
  ∃ c1 c2,
    ChangelistForm.merge_form_meta selfA (ChangelistForm.Build_Form None) c
    = Ok (ChangelistForm.Build_Form (Some shared), c1) ∧
    ChangelistForm.merge_form_meta selfB (ChangelistForm.Build_Form None) c1
    = Ok (ChangelistForm.Build_Form (Some shared), c2) ∧
    ChangelistForm.resolved_widgets c2 shared
    = <[SortableModelAdmin.sortable selfB := a]>
        (<[SortableModelAdmin.sortable selfA := a]>
           (ChangelistForm.resolved_widgets c shared)).
Proof.
  intros Hv Hs shared.
  destruct (merge_form_meta_spec selfA (ChangelistForm.Build_Form None) c a
              Hv Hs (form_valid_no_Meta c))
    as (c1 & d1 & E1 & Hm1 & Hd1 & _ & Hv1 & Hs1 & _).
  destruct (merge_form_meta_spec selfB (ChangelistForm.Build_Form None) c1 a
              Hv1 Hs1 (form_valid_no_Meta c1))
    as (c2 & d2 & E2 & Hm2 & Hd2 & _).
  subst shared. unfold ChangelistForm.SortableListForm_Meta in *. simpl in *.
  exists c1, c2. split; [exact E1|]. split; [exact E2|].
  rewrite (resolved_widgets_at c2 _ d2 _ Hm2 Hd2).
  by rewrite (resolved_widgets_at c1 _ d1 _ Hm1 Hd1).
Qed.

Lemma merge_form_meta_without_Meta_writes_to_shared_dict_witness :
  ∃ c1 c2,
    ChangelistForm.merge_form_meta
      (SortableModelAdmin.Build "position" PyNone PyNone PyNone PyNone 500)
      (ChangelistForm.Build_Form None) ChangelistForm.loaded
    = Ok (ChangelistForm.Build_Form (Some 0%nat), c1) ∧
    ChangelistForm.merge_form_meta
      (SortableModelAdmin.Build "rank" PyNone PyNone PyNone PyNone 500)
      (ChangelistForm.Build_Form None) c1
    = Ok (ChangelistForm.Build_Form (Some 0%nat), c2) ∧
    ChangelistForm.resolved_widgets c2 0
    = <["rank" := 0%nat]> (<["position" := 0%nat]> {[ "order" := 0%nat ]}).
Proof.
  apply (merge_form_meta_without_Meta_writes_to_shared_dict
           (SortableModelAdmin.Build "position" PyNone PyNone PyNone PyNone 500)
           (SortableModelAdmin.Build "rank" PyNone PyNone PyNone PyNone 500)
           ChangelistForm.loaded 0%nat).
  - apply valid_loaded.
  - apply shared_order_loaded.
Defined.

(** X12: merging the same form a second time changes nothing. *)
Theorem merge_form_meta_twice
    (self : SortableModelAdmin.t) (form form' : ChangelistForm.Form)
    (c c' : ChangelistForm.Classes) (a : nat) :
  ChangelistForm.valid c → ChangelistForm.shared_order c a →
  ChangelistForm.form_valid c form →
  ChangelistForm.merge_form_meta self form c = Ok (form', c') →
  ChangelistForm.merge_form_meta self form' c' = Ok (form', c').
Proof.
  intros Hv Hs Hf E.
  destruct (merge_form_meta_spec self form c a Hv Hs Hf)
    as (c1 & d & E1 & Hm & Hd & _ & _ & Hs' & _).
  rewrite E in E1. injection E1 as -> ->.
  eapply merge_form_meta_settled;
    [exact Hm | exact Hd | by rewrite lookup_insert_eq | exact Hs'].
Qed.

Lemma merge_form_meta_twice_witness :
  let self := SortableModelAdmin.Build "position" PyNone PyNone PyNone PyNone 500 in
  let c' := ChangelistForm.Build_Classes
              [SortableListForm.NumberInput SortableListForm.order_attrs]
              [{[ "order" := 0%nat ]}; {[ "position" := 0%nat ]}]
              [Some 0%nat; Some 1%nat] in
  ChangelistForm.merge_form_meta self (ChangelistForm.Build_Form (Some 1%nat)) c'
  = Ok (ChangelistForm.Build_Form (Some 1%nat), c').
Proof.
  intros self c'.
  apply (merge_form_meta_twice self (ChangelistForm.Build_Form (Some 1%nat))
           (ChangelistForm.Build_Form (Some 1%nat))
           (ChangelistForm.Build_Classes
              [SortableListForm.NumberInput SortableListForm.order_attrs]
              [{[ "order" := 0%nat ]}]
              [Some 0%nat; None])
           c' 0%nat).
  - solve_valid.
  - reflexivity.
  - intros m [= <-]. simpl. lia.
  - by vm_compute.
Defined.

(** X13: when the framework's [get_changelist_form] returns a form,
    [get_changelist_form] returns that form, merged: the result is what
    [merge_form_meta] makes of the framework's form, its [Meta] is the one
    the form had (or [SortableListForm.Meta] when it had none), and the
    sortable field's widget there is the shared order widget, the object
    itself and not a copy: no widget is created. *)
Theorem get_changelist_form_uses_shared_widget {Request : Type}
    (super_get_changelist_form :
       Request → ChangelistForm.Classes →
       result (ChangelistForm.Form * ChangelistForm.Classes))
    (self : SortableModelAdmin.t) (request : Request)
    (c c1 : ChangelistForm.Classes) (form : ChangelistForm.Form) (a : nat) :
  super_get_changelist_form request c = Ok (form, c1) →
  ChangelistForm.valid c1 → ChangelistForm.shared_order c1 a →
  ChangelistForm.form_valid c1 form →
  let m := default ChangelistForm.SortableListForm_Meta
                   (ChangelistForm.Meta form) in
  ChangelistForm.get_changelist_form super_get_changelist_form self request c
  = ChangelistForm.merge_form_meta self form c1 ∧
  (∀ m0, ChangelistForm.Meta form = Some m0 →
         ChangelistForm.Build_Form (Some m) = form) ∧
  ∃ c',
    ChangelistForm.get_changelist_form super_get_changelist_form self request c
    = Ok (ChangelistForm.Build_Form (Some m), c') ∧
    ChangelistForm.resolved_widgets c' m
    = <[SortableModelAdmin.sortable self := a]>
        (ChangelistForm.resolved_widgets c1 m) ∧
    ChangelistForm.resolved_widgets c' m !! SortableModelAdmin.sortable self
    = Some a ∧
    ChangelistForm.shared_order c' a ∧
    ChangelistForm.widgets c' = ChangelistForm.widgets c1.
Proof.
  intros Esuper Hv Hs Hf m. subst m.
  assert (ChangelistForm.get_changelist_form super_get_changelist_form self
            request c = ChangelistForm.merge_form_meta self form c1) as Eq.
  { unfold ChangelistForm.get_changelist_form. by rewrite Esuper. }
  split; [exact Eq|]. split.
  - intros m0 Hm0. destruct form as [mf]. simpl in *. by rewrite Hm0.
  - destruct (merge_form_meta_spec self form c1 a Hv Hs Hf)
      as (c' & d & E & Hm & Hd & Hw & _ & Hs' & _).
    exists c'. split; [by rewrite Eq|].
    rewrite (resolved_widgets_at c' _ d _ Hm Hd).
    split; [done|]. by rewrite lookup_insert_eq.
Qed.

Lemma get_changelist_form_uses_shared_widget_witness :
  let c1 := ChangelistForm.Build_Classes
              [SortableListForm.NumberInput SortableListForm.order_attrs]
              [{[ "order" := 0%nat ]}]
              [Some 0%nat; None] in
  ∃ c',
    ChangelistForm.get_changelist_form
      (λ (_ : unit) c,
         Ok (ChangelistForm.Build_Form (Some (length (ChangelistForm.metas c))),
             ChangelistForm.Build_Classes (ChangelistForm.widgets c)
               (ChangelistForm.dicts c) (ChangelistForm.metas c ++ [None])))
      (SortableModelAdmin.Build "order" PyNone PyNone PyNone PyNone 500)
      () ChangelistForm.loaded
    = Ok (ChangelistForm.Build_Form (Some 1%nat), c') ∧
    ChangelistForm.resolved_widgets c' 1 !! "order" = Some 0%nat.
Proof.
  intros c1.
  destruct (get_changelist_form_uses_shared_widget
              (λ (_ : unit) c,
                 Ok (ChangelistForm.Build_Form
                       (Some (length (ChangelistForm.metas c))),
                     ChangelistForm.Build_Classes (ChangelistForm.widgets c)
                       (ChangelistForm.dicts c)
                       (ChangelistForm.metas c ++ [None])))
              (SortableModelAdmin.Build "order" PyNone PyNone PyNone PyNone 500)
              () ChangelistForm.loaded c1
              (ChangelistForm.Build_Form (Some 1%nat)) 0%nat eq_refl)
    as (_ & _ & c' & E & _ & Hr & _).
  - solve_valid.
  - reflexivity.
  - intros m [= <-]. simpl. lia.
  - exists c'. split; [exact E | exact Hr].
Defined.

(** ** The shared widget and the copy *)

(** X14: the tabular inline hands on the shared order widget itself, so a
    write through the handed-on widget shows in the shared one; the stacked
    inline hands on a copy, and a write through it leaves the shared widget
    as it was. *)
Theorem tabular_shares_stacked_copies
    (ti : SortableTabularInlineBase.t) (si : SortableStackedInlineBase.t)
    (kwargs : gmap string nat) (w : SortableListForm.World) (k v : string) :
  SortableListForm.shared_intact w →
  (∃ a w',
     SortableTabularInlineBase.formfield_for_dbfield ti
       (SortableTabularInlineBase.sortable ti) kwargs w
     = Ok (<["widget" := a]> kwargs, w) ∧
     SortableListForm.set_attr w a k v = Ok w' ∧
     (py_getitem (SortableListForm.Meta_widgets w') "order"
        ≫= SortableListForm.deref w')
     = Ok (SortableListForm.NumberInput (<[k := v]> SortableListForm.order_attrs)))
  ∧
  (∃ c w1 w',
     SortableStackedInlineBase.formfield_for_dbfield si
       (SortableStackedInlineBase.sortable si) kwargs w
     = Ok (<["widget" := c]> kwargs, w1) ∧
     SortableListForm.set_attr w1 c k v = Ok w' ∧
     SortableListForm.shared_intact w').
Proof.
  intros Hw. split.
  - destruct (proj1 (shared_intact_address w) Hw) as (a & Ha & Hs).
    exists a. eexists. split; [by apply tabular_formfield_shares|].
    unfold SortableListForm.set_attr, SortableListForm.deref.
    rewrite Hs. simpl. split; [reflexivity|]. simpl.
    unfold py_getitem. rewrite Ha. simpl.
    unfold SortableListForm.deref. simpl.
    by rewrite list_lookup_insert_eq by (by eapply lookup_lt_Some).
  - eexists _, _, _. split; [by apply formfield_for_dbfield_sortable|].
    unfold SortableListForm.set_attr, SortableListForm.deref. simpl.
    rewrite list_lookup_middle by done. simpl. rewrite insert_last.
    split; [reflexivity|].
    by apply (shared_intact_grow w).
Qed.

Lemma tabular_shares_stacked_copies_witness :
  ∃ w',
    SortableListForm.set_attr SortableListForm.loaded 0 "class" "wide" = Ok w' ∧
    (py_getitem (SortableListForm.Meta_widgets w') "order"
       ≫= SortableListForm.deref w')
    = Ok (SortableListForm.NumberInput {[ "class" := "wide" ]}).
Proof.
  destruct (tabular_shares_stacked_copies
              (SortableTabularInlineBase.Build "order" PyNone PyNone)
              (SortableStackedInlineBase.Build "order" PyNone)
              ∅ SortableListForm.loaded "class" "wide" eq_refl)
    as [(a & w' & E & Es & Hr) _].
  vm_compute in E. injection E as <-.
  exists w'. split; [exact Es | exact Hr].
Defined.

(** ** The patches, whatever is installed *)

(** X15: [ImportError] never leaves the two patch blocks, whatever is
    installed and whatever the imports do. *)
Theorem load_never_raises_ImportError
    (env : Patches.environment) (st : Patches.framework) :
  Patches.load env st ≠ Raise ImportError.
Proof.
  unfold Patches.load, Patches.cms_patch, Patches.content_status_patch.
  destruct (bool_decide ("cms" ∈ Patches.INSTALLED_APPS env));
    destruct (bool_decide ("content_status" ∈ Patches.INSTALLED_APPS env));
    destruct (Patches.import_PageForm env) as [|[]];
    destruct (Patches.import_content_models env) as [|[]]; by simpl.
Qed.

(** X16: when the patch blocks run to their end, the page form's widgets are
    replaced, as a whole, by the two date widgets exactly when [cms] is
    listed and imported, and [ModelAdmin.get_list_filter] is replaced exactly
    when [content_status] is listed and imported; otherwise each is what it
    was. *)
Theorem load_applies_what_is_installed
    (env : Patches.environment) (st st' : Patches.framework) :
  Patches.load env st = Ok st' →
  Patches.PageForm_Meta_widgets st'
  = (if bool_decide ("cms" ∈ Patches.INSTALLED_APPS env) then
       match Patches.import_PageForm env with
       | Patches.Imported =>
           {[ "publication_date" := Patches.SuitSplitDateTimeWidget;
              "publication_end_date" := Patches.SuitSplitDateTimeWidget ]}
       | Patches.ImportRaises _ => Patches.PageForm_Meta_widgets st
       end
     else Patches.PageForm_Meta_widgets st)
  ∧ Patches.ModelAdmin_get_list_filter st'
    = (if bool_decide ("content_status" ∈ Patches.INSTALLED_APPS env) then
         match Patches.import_content_models env with
         | Patches.Imported => Patches.db_get_list_filter
         | Patches.ImportRaises _ => Patches.ModelAdmin_get_list_filter st
         end
       else Patches.ModelAdmin_get_list_filter st).
Proof.
  unfold Patches.load, Patches.cms_patch, Patches.content_status_patch.
  destruct (bool_decide ("cms" ∈ Patches.INSTALLED_APPS env));
    destruct (bool_decide ("content_status" ∈ Patches.INSTALLED_APPS env));
    destruct (Patches.import_PageForm env) as [|[]];
    destruct (Patches.import_content_models env) as [|[]]; simpl;
    try done; by intros [= <-].
Qed.

Lemma load_applies_what_is_installed_witness :
  let st := Patches.Build_framework
              {[ "slug" := Patches.FrameworkWidget "TextInput" ]}
              Patches.framework_get_list_filter in
  let st' := Patches.Build_framework
               {[ "publication_date" := Patches.SuitSplitDateTimeWidget;
                  "publication_end_date" := Patches.SuitSplitDateTimeWidget ]}
               Patches.framework_get_list_filter in
  Patches.PageForm_Meta_widgets st' !! "slug" = None ∧
  Patches.ModelAdmin_get_list_filter st' = Patches.framework_get_list_filter.
Proof.
  intros st st'.
  destruct (load_applies_what_is_installed
              (Patches.Build_environment ["cms"; "content_status"]
                 Patches.Imported (Patches.ImportRaises ImportError))
              st st' eq_refl) as [Hw Hf].
  split; [by rewrite Hw | exact Hf].
Defined.

(** ** The content-status filter *)

Section content_status.

Import ContentStatus.

Lemma path_listed_iff_lookups app_label model_name levels :
  dotted app_label model_name ∈ model_path <$> levels
  ↔ lookups app_label model_name levels ≠ [].
Proof.
  unfold lookups. induction levels as [|l levels IH]; simpl.
  - split; [by intros H%elem_of_nil | done].
  - rewrite elem_of_cons, IH.
    destruct (decide (model_path l = dotted app_label model_name)) as [E|Hne].
    + rewrite filter_cons_True by done. simpl. split; [done | by left].
    + rewrite filter_cons_False by done. split; [|by right].
      intros [E|H]; [by symmetry in E | done].
Qed.

Lemma filter_key_absent (levels : list Level) (n : Z) :
  n ∉ pk <$> levels → filter (λ x, pk x = n) levels = [].
Proof.
  induction levels as [|x levels IH]; simpl; [done|].
  intros [Hne Hnin]%not_elem_of_cons.
  rewrite filter_cons_False by (by intros E). by apply IH.
Qed.

Lemma filter_unique_key (levels : list Level) (l : Level) :
  NoDup (pk <$> levels) → l ∈ levels →
  filter (λ x, pk x = pk l) levels = [l].
Proof.
  induction levels as [|x levels IH]; simpl.
  - by intros _ H%elem_of_nil.
  - intros [Hx Hnd]%NoDup_cons [->|Hin]%elem_of_cons.
    + rewrite filter_cons_True by done. f_equal. by apply filter_key_absent.
    + rewrite filter_cons_False; [by apply IH|].
      intros E. apply Hx. rewrite E. apply list_elem_of_fmap. by exists l.
Qed.

End content_status.

(** X17: for a model whose [str(self.model._meta)] is its dotted path
    [app_label.model_name], [db_get_list_filter] adds [ContentStatusFilter]
    exactly when that filter has at least one choice to offer ([lookups] is
    not empty): then it returns the configured filters, all of them and in
    their order, followed by the filter (and raises [TypeError] when
    [list_filter] is [None]); otherwise it returns [list_filter] itself. *)
Theorem content_status_filter_added_iff_it_has_choices
    (curr_model_path app_label model_name : string)
    (levels : list ContentStatus.Level) (list_filter : ContentStatus.filters) :
  curr_model_path = ContentStatus.dotted app_label model_name →
  (ContentStatus.lookups app_label model_name levels = [] →
   ContentStatus.db_get_list_filter curr_model_path levels list_filter
   = Ok list_filter) ∧
  (ContentStatus.lookups app_label model_name levels ≠ [] →
   ContentStatus.db_get_list_filter curr_model_path levels list_filter
   = match list_filter with
     | ContentStatus.NoFilters => Raise TypeError
     | _ => Ok (ContentStatus.FilterList
                  (ContentStatus.filter_items list_filter
                   ++ [ContentStatus.ContentStatusFilter]))
     end).
Proof.
  intros ->. unfold ContentStatus.db_get_list_filter. split; intros H.
  - rewrite bool_decide_eq_false_2; [done|].
    rewrite path_listed_iff_lookups. by intros Hne.
  - rewrite bool_decide_eq_true_2 by (by apply path_listed_iff_lookups).
    by destruct list_filter.
Qed.

Lemma content_status_filter_added_iff_it_has_choices_witness :
  let levels := [ContentStatus.Build_Level 1 "Draft" "blog.post";
                 ContentStatus.Build_Level 2 "Live" "shop.item"] in
  ContentStatus.db_get_list_filter "blog.post" levels
    (ContentStatus.FilterTuple [ContentStatus.FieldFilter "author"])
  = Ok (ContentStatus.FilterList
          [ContentStatus.FieldFilter "author"; ContentStatus.ContentStatusFilter])
  ∧ ContentStatus.db_get_list_filter "blog.tag" levels
      (ContentStatus.FilterTuple [ContentStatus.FieldFilter "author"])
    = Ok (ContentStatus.FilterTuple [ContentStatus.FieldFilter "author"]).
Proof.
  intros levels. split.
  - apply (content_status_filter_added_iff_it_has_choices
             "blog.post" "blog" "post" levels
             (ContentStatus.FilterTuple [ContentStatus.FieldFilter "author"])
             eq_refl).
    by vm_compute.
  - apply (content_status_filter_added_iff_it_has_choices
             "blog.tag" "blog" "tag" levels
             (ContentStatus.FilterTuple [ContentStatus.FieldFilter "author"])
             eq_refl).
    by vm_compute.
Defined.

(** X18: every choice [lookups] offers is one [queryset] accepts: when the
    keys of the levels are distinct and the submitted value reads as the key
    of an offered choice, [queryset] returns the queryset narrowed by
    [make_query] of a level of this very model with that key and title. *)
Theorem content_status_choice_resolves {Queryset : Type}
    (py_int : string → result Z)
    (make_query : ContentStatus.Level → Queryset → Queryset)
    (app_label model_name : string) (levels : list ContentStatus.Level)
    (n : Z) (t v : string) (qs : Queryset) :
  NoDup (ContentStatus.pk <$> levels) →
  (n, t) ∈ ContentStatus.lookups app_label model_name levels →
  v ≠ "" → py_int v = Ok n →
  ∃ level,
    level ∈ levels ∧
    ContentStatus.pk level = n ∧ ContentStatus.title level = t ∧
    ContentStatus.model_path level = ContentStatus.dotted app_label model_name ∧
    ContentStatus.queryset py_int make_query (Some v) levels qs
    = Ok (make_query level qs).
Proof.
  intros Hnd Hin Hv Hint. unfold ContentStatus.lookups in Hin.
  apply list_elem_of_fmap in Hin as (l & [= -> ->] & Hl).
  apply list_elem_of_filter in Hl as [Hpath Hl].
  exists l. repeat split; try done.
  unfold ContentStatus.queryset. rewrite bool_decide_eq_false_2 by done.
  rewrite Hint. simpl. unfold ContentStatus.get_level.
  by rewrite filter_unique_key.
Qed.

Lemma content_status_choice_resolves_witness :
  let levels := [ContentStatus.Build_Level 1 "Draft" "blog.post";
                 ContentStatus.Build_Level 2 "Live" "blog.post"] in
  ContentStatus.queryset
    (λ v, if bool_decide (v = "2") then Ok 2%Z else Raise (OtherError "ValueError"))
    (λ level (qs : list string), ContentStatus.title level :: qs)
    (Some "2") levels []
  = Ok ["Live"].
Proof.
  intros levels.
  destruct (content_status_choice_resolves
              (λ v, if bool_decide (v = "2") then Ok 2%Z
                    else Raise (OtherError "ValueError"))
              (λ level (qs : list string), ContentStatus.title level :: qs)
              "blog" "post" levels 2%Z "Live" "2" [])
    as (level & _ & Hpk & Ht & _ & E).
  - simpl. apply (bool_decide_unpack _). by vm_compute.
  - apply (bool_decide_unpack _). by vm_compute.
  - done.
  - reflexivity.
  - rewrite E. simpl. by rewrite Ht.
Defined.
